(** * SMOTEENN: over-sampling with SMOTE followed by cleaning with ENN

    A shallow embedding of [unbalanced_dataset/combine/smote_enn.py].

    The class [SMOTEENN] is orchestration code: it validates its input
    with [sklearn.utils.check_X_y], initialises its [BaseSampler] part,
    builds two collaborators ([SMOTE] and [EditedNearestNeighbours]) and
    sequences their [fit] / [transform] / [fit_transform] calls.  The
    collaborators live in other modules of the package; here they are the
    fields of the class [Collaborators], so every theorem below holds for
    all implementations of them.

    Python objects are mutable and exceptions do not roll back mutation,
    so the methods are written in a monad that threads a store of
    [SMOTEENN] objects and the ambient world (the global random generator,
    standard output) through every call, keeps the store when an exception
    is raised, and records each delegated call in a trace. *)

From Stdlib Require Import List String ZArith Bool Arith PrimFloat.
Import ListNotations.
Local Open Scope string_scope.
Local Open Scope list_scope.

Set Implicit Arguments.

(** ** Python values, keyword arguments, exceptions *)

(** The values the constructor parameters range over, as the docstring
    lists them: [None], booleans, ints, floats and strings. *)
Inductive pyval : Type :=
| PNone
| PBool (b : bool)
| PInt (z : Z)
| PFloat (f : float)
| PStr (s : string).

(** Keyword arguments of a call, in the order they are written. *)
Definition keywords : Type := list (string * pyval).

Fixpoint lookup (key : string) (kw : keywords) : option pyval :=
  match kw with
  | [] => None
  | (k', v) :: rest => if String.eqb key k' then Some v else lookup key rest
  end.

Definition has_key (key : string) (kw : keywords) : bool :=
  existsb (fun kv => String.eqb key (fst kv)) kw.

(** An exception: its class and its message. *)
Record exn : Type := Exn { exn_class : string; exn_msg : string }.

Definition TypeError (msg : string) : exn := Exn "TypeError" msg.

(** The outcome of a call: a returned value or a raised exception. *)
Inductive Res (A : Type) : Type :=
| Ok (a : A)
| Raise (e : exn).
Arguments Raise {A} e.

Definition forget {A} (r : Res A) : Res unit :=
  match r with Ok _ => Ok tt | Raise e => Raise e end.

Definition is_ok {A} (r : Res A) : bool :=
  match r with Ok _ => true | Raise _ => false end.

(** A call [f(k1=v1, ..., **star)]: Python refuses a keyword that is
    given both explicitly and through the [**] dictionary, with a
    [TypeError] raised before [f] is entered. *)
Definition duplicate_keyword (explicit star : keywords) : option string :=
  match find (fun kv => has_key (fst kv) explicit) star with
  | Some (key, _) => Some key
  | None => None
  end.

Definition multiple_values (key : string) : exn :=
  TypeError ("got multiple values for keyword argument '" ++ key ++ "'")%string.

(** ** The collaborators *)

(** A method of a collaborator whose receiver state is [C]: it may read
    and change the receiver and the ambient world [W], and returns or
    raises. *)
Definition method (W C A : Type) : Type := C -> W -> Res A * C * W.

(** A class called to build a new object. *)
Definition constructor (W C : Type) : Type := keywords -> W -> Res C * W.

Class Collaborators : Type := {
  (** [X : ndarray, shape (n_samples, n_features)] *)
  samples : Type;
  (** [y : ndarray, shape (n_samples, )] *)
  targets : Type;
  (** what every call may read and write besides its receiver *)
  world : Type;
  (** the attributes [BaseSampler] keeps on [self] *)
  BaseSampler : Type;
  SMOTE : Type;
  EditedNearestNeighbours : Type;
  (** [sklearn.utils.check_X_y] *)
  check_X_y : samples -> targets -> Res (samples * targets);
  (** [BaseSampler.__init__(self, ratio=, random_state=, verbose=)] *)
  BaseSampler_init : keywords -> method world BaseSampler unit;
  (** [BaseSampler.fit(self, X, y)] *)
  BaseSampler_fit : samples -> targets -> method world BaseSampler unit;
  (** [BaseSampler.transform(self, X, y)] *)
  BaseSampler_transform : samples -> targets -> method world BaseSampler unit;
  (** [SMOTE(...)] *)
  SMOTE_new : constructor world SMOTE;
  SMOTE_fit : samples -> targets -> method world SMOTE unit;
  SMOTE_transform :
    samples -> targets -> method world SMOTE (samples * targets);
  (** [EditedNearestNeighbours(...)] *)
  ENN_new : constructor world EditedNearestNeighbours;
  ENN_fit_transform :
    samples -> targets ->
    method world EditedNearestNeighbours (samples * targets)
}.

(** The arguments of [SMOTEENN.__init__] once Python has bound them:
    one field per named parameter, and [kwargs] for the rest. *)
Module Args.
Record t : Type := Build {
  ratio : pyval;
  random_state : pyval;
  verbose : pyval;
  k : pyval;
  m : pyval;
  out_step : pyval;
  kind_smote : pyval;
  nn_method : pyval;
  size_ngh : pyval;
  kind_enn : pyval;
  n_jobs : pyval;
  kwargs : keywords
}.

(** The defaults of the signature. *)
Definition default : t := {|
  ratio := PStr "auto";
  random_state := PNone;
  verbose := PBool true;
  k := PInt 5;
  m := PInt 10;
  out_step := PFloat 0.5;
  kind_smote := PStr "regular";
  nn_method := PStr "exact";
  size_ngh := PInt 3;
  kind_enn := PStr "all";
  n_jobs := PInt (-1);
  kwargs := []
|}.

(** The names of the parameters of [__init__]: a keyword of a call
    [SMOTEENN(...)] with one of these names is bound to the parameter and
    never reaches [kwargs]. *)
Definition parameter_names : list string :=
  ["ratio"; "random_state"; "verbose"; "k"; "m"; "out_step"; "kind_smote";
   "nn_method"; "size_ngh"; "kind_enn"; "n_jobs"].

(** What [kwargs] can hold after a call [SMOTEENN(...)]: distinct keys,
    none of them a named parameter. *)
Definition well_formed (a : t) : bool :=
  forallb (fun kv => negb (existsb (String.eqb (fst kv)) parameter_names))
          (kwargs a)
  && (fix distinct (l : list string) : bool :=
        match l with
        | [] => true
        | x :: r => negb (existsb (String.eqb x) r) && distinct r
        end) (map fst (kwargs a)).
End Args.

Section Store.

Context {collab : Collaborators}.

(** ** Objects, store and trace *)

(** A [SMOTEENN] object: the attributes of its [BaseSampler] part and the
    two collaborators it owns. *)
Record SMOTEENN : Type := {
  base : BaseSampler;
  sm : SMOTE;
  enn : EditedNearestNeighbours
}.

(** One attribute of a [SMOTEENN] object: how to read and replace it. *)
Record attribute (C : Type) : Type := {
  getattr : SMOTEENN -> C;
  setattr : C -> SMOTEENN -> SMOTEENN
}.

Definition attr_base : attribute BaseSampler :=
  {| getattr := base;
     setattr := fun b o => {| base := b; sm := sm o; enn := enn o |} |}.

Definition attr_sm : attribute SMOTE :=
  {| getattr := sm;
     setattr := fun s o => {| base := base o; sm := s; enn := enn o |} |}.

Definition attr_enn : attribute EditedNearestNeighbours :=
  {| getattr := enn;
     setattr := fun e o => {| base := base o; sm := sm o; enn := e |} |}.

(** References to [SMOTEENN] objects.  The store is total: a reference
    that has not been through [__init__] holds arbitrary attributes. *)
Definition ref : Type := nat.

Definition store : Type := ref -> SMOTEENN.

Definition update (h : store) (r : ref) (o : SMOTEENN) : store :=
  fun r' => if Nat.eqb r' r then o else h r'.

Record state : Type := { heap : store; ambient : world }.

(** A delegated call, with its arguments and its outcome. *)
Inductive call : Type :=
| Call_check_X_y (X : samples) (y : targets) (r : Res (samples * targets))
| Call_BaseSampler_init (kw : keywords) (r : Res unit)
| Call_SMOTE (kw : keywords) (r : Res unit)
| Call_ENN (kw : keywords) (r : Res unit)
| Call_BaseSampler_fit (X : samples) (y : targets) (r : Res unit)
| Call_SMOTE_fit (X : samples) (y : targets) (r : Res unit)
| Call_BaseSampler_transform (X : samples) (y : targets) (r : Res unit)
| Call_SMOTE_transform (X : samples) (y : targets)
                       (r : Res (samples * targets))
| Call_ENN_fit_transform (X : samples) (y : targets)
                         (r : Res (samples * targets)).

Definition raised_by {A} (r : Res A) : option exn :=
  match r with Ok _ => None | Raise e => Some e end.

(** The exception a call raised, if it raised. *)
Definition raised (c : call) : option exn :=
  match c with
  | Call_check_X_y _ _ r => raised_by r
  | Call_BaseSampler_init _ r => raised_by r
  | Call_SMOTE _ r => raised_by r
  | Call_ENN _ r => raised_by r
  | Call_BaseSampler_fit _ _ r => raised_by r
  | Call_SMOTE_fit _ _ r => raised_by r
  | Call_BaseSampler_transform _ _ r => raised_by r
  | Call_SMOTE_transform _ _ r => raised_by r
  | Call_ENN_fit_transform _ _ r => raised_by r
  end.

(** ** The monad of method bodies *)

Definition M (A : Type) : Type := state -> Res A * state * list call.

Definition outcome {A} (x : Res A * state * list call) : Res A := fst (fst x).
Definition final {A} (x : Res A * state * list call) : state := snd (fst x).
Definition trace {A} (x : Res A * state * list call) : list call := snd x.

Definition ret {A} (a : A) : M A := fun st => (Ok a, st, []).

Definition bind {A B} (c : M A) (f : A -> M B) : M B :=
  fun st =>
    let '(r, st1, t1) := c st in
    match r with
    | Ok a => let '(r2, st2, t2) := f a st1 in (r2, st2, t1 ++ t2)
    | Raise e => (Raise e, st1, t1)
    end.

(** [check_X_y(X, y)]: a library function, it sees no object. *)
Definition call_check_X_y (X : samples) (y : targets) : M (samples * targets) :=
  fun st => (check_X_y X y, st, [Call_check_X_y X y (check_X_y X y)]).

(** A method called on the attribute [a] of [self] ([a] is the
    [BaseSampler] part for a [super()] call): the receiver is updated in
    place, also when the method raises. *)
Definition invoke {C A} (a : attribute C) (self : ref) (f : method world C A)
    (event : Res A -> call) : M A :=
  fun st =>
    let o := heap st self in
    let x := f (getattr a o) (ambient st) in
    (fst (fst x),
     {| heap := update (heap st) self (setattr a (snd (fst x)) o);
        ambient := snd x |},
     [event (fst (fst x))]).

(** [cls(k1=v1, ...)] *)
Definition construct {C} (cls : constructor world C) (kw : keywords)
    (event : keywords -> Res unit -> call) : M C :=
  fun st =>
    let x := cls kw (ambient st) in
    (fst x, {| heap := heap st; ambient := snd x |}, [event kw (forget (fst x))]).

(** [cls(k1=v1, ..., **star)] *)
Definition construct_star {C} (cls : constructor world C)
    (explicit star : keywords) (event : keywords -> Res unit -> call) : M C :=
  match duplicate_keyword explicit star with
  | Some key =>
      fun st => (Raise (multiple_values key), st,
                 [event (explicit ++ star) (Raise (multiple_values key))])
  | None => construct cls (explicit ++ star) event
  end.

(** [self.a = v] *)
Definition assign {C} (a : attribute C) (self : ref) (v : C) : M unit :=
  fun st =>
    (Ok tt,
     {| heap := update (heap st) self (setattr a v (heap st self));
        ambient := ambient st |},
     []).

End Store.

Notation "x <- c ;; f" := (bind c (fun x => f))
  (at level 61, c at next level, right associativity).
Notation "' p <- c ;; f" := (bind c (fun x => let 'p := x in f))
  (at level 61, p pattern, c at next level, right associativity).
Notation "c ;; f" := (bind c (fun _ => f))
  (at level 61, right associativity).

(** ** The class *)

Section SMOTEENN.

Context {collab : Collaborators}.

Definition base_keywords (a : Args.t) : keywords :=
  [("ratio", Args.ratio a); ("random_state", Args.random_state a);
   ("verbose", Args.verbose a)].

Definition smote_keywords (a : Args.t) : keywords :=
  [("ratio", Args.ratio a); ("random_state", Args.random_state a);
   ("verbose", Args.verbose a); ("k", Args.k a); ("m", Args.m a);
   ("out_step", Args.out_step a); ("kind", Args.kind_smote a);
   ("nn_method", Args.nn_method a); ("n_jobs", Args.n_jobs a)].

Definition enn_keywords (a : Args.t) : keywords :=
  [("random_state", Args.random_state a); ("verbose", Args.verbose a);
   ("size_ngh", Args.size_ngh a); ("kind_sel", Args.kind_enn a);
   ("n_jobs", Args.n_jobs a)].

(** [SMOTEENN.__init__] *)
Definition __init__ (self : ref) (a : Args.t) : M unit :=
  invoke attr_base self (BaseSampler_init (base_keywords a))
         (Call_BaseSampler_init (base_keywords a)) ;;
  s <- construct_star SMOTE_new (smote_keywords a) (Args.kwargs a) Call_SMOTE ;;
  assign attr_sm self s ;;
  e <- construct ENN_new (enn_keywords a) Call_ENN ;;
  assign attr_enn self e.

(** [SMOTEENN.fit] *)
Definition fit (self : ref) (X : samples) (y : targets) : M ref :=
  '(X, y) <- call_check_X_y X y ;;
  invoke attr_base self (BaseSampler_fit X y) (Call_BaseSampler_fit X y) ;;
  invoke attr_sm self (SMOTE_fit X y) (Call_SMOTE_fit X y) ;;
  ret self.

(** [SMOTEENN.transform] *)
Definition transform (self : ref) (X : samples) (y : targets)
  : M (samples * targets) :=
  '(X, y) <- call_check_X_y X y ;;
  invoke attr_base self (BaseSampler_transform X y)
         (Call_BaseSampler_transform X y) ;;
  '(X, y) <- invoke attr_sm self (SMOTE_transform X y)
                    (Call_SMOTE_transform X y) ;;
  invoke attr_enn self (ENN_fit_transform X y) (Call_ENN_fit_transform X y).

End SMOTEENN.

(** ** What the specification talks about *)

Section Specification.

Context {collab : Collaborators}.

(** "Run estimator A's transform, feed its output to estimator B's
    fit_transform, return the result": the two-stage pipeline in the
    specification's words, on a SMOTE object [s], an ENN object [e] and
    the ambient world [w]. *)
Definition smote_then_enn (X : samples) (y : targets) (s : SMOTE)
    (e : EditedNearestNeighbours) (w : world) : Res (samples * targets) :=
  let a := SMOTE_transform X y s w in
  match fst (fst a) with
  | Ok (X1, y1) => fst (fst (ENN_fit_transform X1 y1 e (snd a)))
  | Raise ex => Raise ex
  end.

(** [obj.fit(X, y).transform(X, y)]: [transform] called on what [fit]
    returned. *)
Definition fit_then_transform (self : ref) (X : samples) (y : targets)
  : M (samples * targets) :=
  r <- fit self X y ;; transform r X y.

(** [obj = SMOTEENN(...); obj.fit(X, y); obj.transform(X, y)] *)
Definition resample (self : ref) (a : Args.t) (X : samples) (y : targets)
  : M (samples * targets) :=
  __init__ self a ;; fit self X y ;; transform self X y.

(** The collaborators a run instantiated: the constructor calls that
    returned an object. *)
Definition instantiated (c : call) : bool :=
  match c with
  | Call_SMOTE _ (Ok _) | Call_ENN _ (Ok _) => true
  | _ => false
  end.

Definition instantiations (t : list call) : list call := filter instantiated t.

(** The keyword arguments [kw] give each name of [bindings] its value. *)
Definition receives (kw : keywords) (bindings : keywords) : Prop :=
  Forall (fun b => lookup (fst b) kw = Some (snd b)) bindings.

(** The constructor run from [st] instantiates exactly two collaborators,
    SMOTE with the forwarded SMOTE configuration and ENN with the
    forwarded ENN configuration. *)
Definition forwards_configuration (self : ref) (a : Args.t) (st : state)
  : Prop :=
  exists kw_sm kw_enn,
    instantiations (trace (__init__ self a st))
      = [Call_SMOTE kw_sm (Ok tt); Call_ENN kw_enn (Ok tt)]
    /\ receives kw_sm
         [("ratio", Args.ratio a); ("random_state", Args.random_state a);
          ("verbose", Args.verbose a); ("k", Args.k a); ("m", Args.m a);
          ("out_step", Args.out_step a); ("kind", Args.kind_smote a);
          ("nn_method", Args.nn_method a); ("n_jobs", Args.n_jobs a)]
    /\ receives kw_enn
         [("random_state", Args.random_state a); ("verbose", Args.verbose a);
          ("size_ngh", Args.size_ngh a); ("kind_sel", Args.kind_enn a);
          ("n_jobs", Args.n_jobs a)].

(** The keyword arguments of the calls [EditedNearestNeighbours(...)] and
    [SMOTE(...)] of a trace. *)
Definition enn_constructions (t : list call) : list keywords :=
  flat_map (fun c => match c with Call_ENN kw _ => [kw] | _ => [] end) t.

Definition smote_constructions (t : list call) : list keywords :=
  flat_map (fun c => match c with Call_SMOTE kw _ => [kw] | _ => [] end) t.

(** The data the ENN collaborator was fitted on in a trace. *)
Definition enn_fitted_on (t : list call) : list (samples * targets) :=
  flat_map (fun c => match c with
                     | Call_ENN_fit_transform X y _ => [(X, y)]
                     | _ => []
                     end) t.

(** Two argument assignments that differ at most in [ratio] and in the
    extra keyword arguments. *)
Definition same_but_ratio_and_kwargs (a1 a2 : Args.t) : Prop :=
  Args.random_state a1 = Args.random_state a2
  /\ Args.verbose a1 = Args.verbose a2
  /\ Args.k a1 = Args.k a2
  /\ Args.m a1 = Args.m a2
  /\ Args.out_step a1 = Args.out_step a2
  /\ Args.kind_smote a1 = Args.kind_smote a2
  /\ Args.nn_method a1 = Args.nn_method a2
  /\ Args.size_ngh a1 = Args.size_ngh a2
  /\ Args.kind_enn a1 = Args.kind_enn a2
  /\ Args.n_jobs a1 = Args.n_jobs a2.

(** A method body adds no failure of its own and hides none: it raises
    [e] exactly when one of the calls it made raised [e]. *)
Definition raises_iff_a_call_raises {A} (c : M A) : Prop :=
  forall st e,
    outcome (c st) = Raise e
    <-> exists d, In d (trace (c st)) /\ raised d = Some e.

(** *** Seeds *)

(** A collaborator honours its seed when, once its [rs_] attribute is an
    integer, what it returns and what it becomes do not depend on the
    ambient world, and it keeps its seed. *)
Definition honours_seed {C A} (rs_ : C -> pyval) (f : method world C A)
  : Prop :=
  forall c w1 w2 n,
    rs_ c = PInt n ->
    fst (f c w1) = fst (f c w2) /\ rs_ (snd (fst (f c w1))) = PInt n.

(** An initialiser given an integer [random_state] stores it as [rs_]. *)
Definition init_honours_seed {C} (rs_ : C -> pyval)
    (f : keywords -> method world C unit) : Prop :=
  forall kw c w1 w2 n,
    lookup "random_state" kw = Some (PInt n) ->
    fst (f kw c w1) = fst (f kw c w2)
    /\ (fst (fst (f kw c w1)) = Ok tt -> rs_ (snd (fst (f kw c w1))) = PInt n).

Definition new_honours_seed {C} (rs_ : C -> pyval) (cls : constructor world C)
  : Prop :=
  forall kw w1 w2 n,
    lookup "random_state" kw = Some (PInt n) ->
    fst (cls kw w1) = fst (cls kw w2)
    /\ (forall c, fst (cls kw w1) = Ok c -> rs_ c = PInt n).

(** Collaborators that draw their randomness from their own seed once
    they are given one. *)
Class SeedDiscipline : Type := {
  BaseSampler_rs_ : BaseSampler -> pyval;
  SMOTE_rs_ : SMOTE -> pyval;
  ENN_rs_ : EditedNearestNeighbours -> pyval;
  seeded_BaseSampler_init : init_honours_seed BaseSampler_rs_ BaseSampler_init;
  seeded_BaseSampler_fit :
    forall X y, honours_seed BaseSampler_rs_ (BaseSampler_fit X y);
  seeded_BaseSampler_transform :
    forall X y, honours_seed BaseSampler_rs_ (BaseSampler_transform X y);
  seeded_SMOTE_new : new_honours_seed SMOTE_rs_ SMOTE_new;
  seeded_SMOTE_fit : forall X y, honours_seed SMOTE_rs_ (SMOTE_fit X y);
  seeded_SMOTE_transform :
    forall X y, honours_seed SMOTE_rs_ (SMOTE_transform X y);
  seeded_ENN_new : new_honours_seed ENN_rs_ ENN_new;
  seeded_ENN_fit_transform :
    forall X y, honours_seed ENN_rs_ (ENN_fit_transform X y)
}.

(** Two runs of [c] that start with the same object behind [self], one
    that satisfies [P], agree: same outcome, same calls, same object
    behind [self] afterwards, which satisfies [Q] when [c] returned. *)
Definition agree {A} (self : ref) (P : SMOTEENN -> Prop) (c : M A)
    (Q : A -> SMOTEENN -> Prop) : Prop :=
  forall st1 st2,
    heap st1 self = heap st2 self -> P (heap st1 self) ->
    outcome (c st1) = outcome (c st2)
    /\ trace (c st1) = trace (c st2)
    /\ heap (final (c st1)) self = heap (final (c st2)) self
    /\ (forall a, outcome (c st1) = Ok a -> Q a (heap (final (c st1)) self)).

(** The parts of an object that hold the seed [n]. *)
Definition base_seeded {sd : SeedDiscipline} (n : Z) (o : SMOTEENN) : Prop :=
  BaseSampler_rs_ (base o) = PInt n.

Definition sm_seeded {sd : SeedDiscipline} (n : Z) (o : SMOTEENN) : Prop :=
  base_seeded n o /\ SMOTE_rs_ (sm o) = PInt n.

Definition all_seeded {sd : SeedDiscipline} (n : Z) (o : SMOTEENN) : Prop :=
  sm_seeded n o /\ ENN_rs_ (enn o) = PInt n.

End Specification.

(** ** Calling the class *)

(** The keys of a dictionary are distinct. *)
Fixpoint distinct (l : list string) : bool :=
  match l with
  | [] => true
  | x :: r => negb (existsb (String.eqb x) r) && distinct r
  end.

Definition is_parameter (name : string) : bool :=
  existsb (String.eqb name) Args.parameter_names.

(** The value of the parameter at position [i] of the signature: the
    positional argument there, else the keyword argument of that name, else
    the default. *)
Definition parameter (pos : list pyval) (kw : keywords) (i : nat)
    (name : string) (default : pyval) : pyval :=
  match nth_error pos i with
  | Some v => v
  | None => match lookup name kw with Some v => v | None => default end
  end.

Definition multiple_values_for (name : string) : exn :=
  TypeError ("got multiple values for argument '" ++ name ++ "'")%string.

Definition too_many_positional : exn :=
  TypeError "__init__() takes from 1 to 12 positional arguments".

(** [def __init__(self, ratio='auto', random_state=None, verbose=True,
    k=5, m=10, out_step=0.5, kind_smote='regular', nn_method='exact',
    size_ngh=3, kind_enn='all', n_jobs=-1, **kwargs)] applied to the
    positional arguments [pos] (after [self]) and the keyword arguments
    [kw]: a keyword that names [self] or a parameter already given by
    position is refused, then too many positional arguments are; the
    keywords that name no parameter make up [kwargs]. *)
Definition bind_arguments (pos : list pyval) (kw : keywords) : Res Args.t :=
  match
    find (fun kv =>
            existsb (String.eqb (fst kv))
                    ("self" :: firstn (List.length pos) Args.parameter_names))
         kw
  with
  | Some (name, _) => Raise (multiple_values_for name)
  | None =>
      if (List.length Args.parameter_names <? List.length pos)%nat
      then Raise too_many_positional
      else
        Ok {| Args.ratio :=
                parameter pos kw 0 "ratio" (Args.ratio Args.default);
              Args.random_state :=
                parameter pos kw 1 "random_state"
                          (Args.random_state Args.default);
              Args.verbose :=
                parameter pos kw 2 "verbose" (Args.verbose Args.default);
              Args.k := parameter pos kw 3 "k" (Args.k Args.default);
              Args.m := parameter pos kw 4 "m" (Args.m Args.default);
              Args.out_step :=
                parameter pos kw 5 "out_step" (Args.out_step Args.default);
              Args.kind_smote :=
                parameter pos kw 6 "kind_smote" (Args.kind_smote Args.default);
              Args.nn_method :=
                parameter pos kw 7 "nn_method" (Args.nn_method Args.default);
              Args.size_ngh :=
                parameter pos kw 8 "size_ngh" (Args.size_ngh Args.default);
              Args.kind_enn :=
                parameter pos kw 9 "kind_enn" (Args.kind_enn Args.default);
              Args.n_jobs :=
                parameter pos kw 10 "n_jobs" (Args.n_jobs Args.default);
              Args.kwargs :=
                filter (fun kv => negb (is_parameter (fst kv))) kw |}
  end.

Section Call.

Context {collab : Collaborators}.

Definition raise {A} (e : exn) : M A := fun st => (Raise e, st, []).

(** A call of the class with the positional arguments [pos] and the
    keyword arguments [kw]; the new object is behind [self]. *)
Definition call_SMOTEENN (self : ref) (pos : list pyval) (kw : keywords)
  : M unit :=
  match bind_arguments pos kw with
  | Ok a => __init__ self a
  | Raise e => raise e
  end.

(** Every call of a trace but the last returned. *)
Definition only_the_last_call_raises (t : list call) : Prop :=
  Forall (fun d => raised d = None) (removelast t).

(** Two argument assignments that differ at most in the parameters only
    the ENN collaborator is given, [size_ngh] and [kind_enn]. *)
Definition same_but_enn_parameters (a1 a2 : Args.t) : Prop :=
  Args.ratio a1 = Args.ratio a2
  /\ Args.random_state a1 = Args.random_state a2
  /\ Args.verbose a1 = Args.verbose a2
  /\ Args.k a1 = Args.k a2
  /\ Args.m a1 = Args.m a2
  /\ Args.out_step a1 = Args.out_step a2
  /\ Args.kind_smote a1 = Args.kind_smote a2
  /\ Args.nn_method a1 = Args.nn_method a2
  /\ Args.n_jobs a1 = Args.n_jobs a2
  /\ Args.kwargs a1 = Args.kwargs a2.

(** Two argument assignments that agree on the five parameters the ENN
    collaborator is given. *)
Definition same_enn_parameters (a1 a2 : Args.t) : Prop :=
  Args.random_state a1 = Args.random_state a2
  /\ Args.verbose a1 = Args.verbose a2
  /\ Args.size_ngh a1 = Args.size_ngh a2
  /\ Args.kind_enn a1 = Args.kind_enn a2
  /\ Args.n_jobs a1 = Args.n_jobs a2.

End Call.

(** ** A small implementation of the collaborators

    One-dimensional stand-ins for the collaborators, to run the class on
    concrete data: the over-sampler adds one synthetic minority sample,
    drawn from its seed when it has one and from the global generator
    otherwise; the cleaner removes the samples that carry no feature. *)

Module Toy.

Definition ValueError (msg : string) : exn := Exn "ValueError" msg.
Definition RuntimeError (msg : string) : exn := Exn "RuntimeError" msg.

Record base_t : Type := { rs_ : pyval; X_shape_ : option nat }.
Record smote_t : Type := { sm_rs_ : pyval; sm_min_c_ : option Z }.
Record enn_t : Type := { enn_rs_ : pyval; enn_kind_sel : pyval }.

Definition arg (key : string) (kw : keywords) : pyval :=
  match lookup key kw with Some v => v | None => PNone end.

Definition check (X : list (list Z)) (y : list Z)
  : Res (list (list Z) * list Z) :=
  if (List.length X =? List.length y)%nat && negb (List.length X =? 0)%nat
  then Ok (X, y)
  else Raise (ValueError
                "Found input variables with inconsistent numbers of samples").

Definition base_init (kw : keywords) : method nat base_t unit :=
  fun b w =>
    match arg "ratio" kw with
    | PFloat _ =>
        (Ok tt, {| rs_ := arg "random_state" kw; X_shape_ := None |}, w)
    | PStr s =>
        if String.eqb s "auto"
        then (Ok tt, {| rs_ := arg "random_state" kw; X_shape_ := None |}, w)
        else (Raise (ValueError "Unknown string for the parameter ratio."),
              b, w)
    | _ => (Raise (ValueError "Unknown parameter type for ratio."), b, w)
    end.

(** Fitting reports on standard output. *)
Definition base_fit (X : list (list Z)) (y : list Z)
  : method nat base_t unit :=
  fun b w => (Ok tt, {| rs_ := rs_ b; X_shape_ := Some (List.length X) |}, S w).

Definition base_transform (X : list (list Z)) (y : list Z)
  : method nat base_t unit :=
  fun b w =>
    match X_shape_ b with
    | Some n =>
        if (n =? List.length X)%nat then (Ok tt, b, w)
        else (Raise (RuntimeError "Use the fitted data."), b, w)
    | None => (Raise (RuntimeError "You need to fit the data, first!!!"), b, w)
    end.

Definition possible_kind : list string :=
  ["regular"; "borderline1"; "borderline2"; "svm"].

Definition smote_new : constructor nat smote_t :=
  fun kw w =>
    match arg "kind" kw with
    | PStr s =>
        if existsb (String.eqb s) possible_kind
        then (Ok {| sm_rs_ := arg "random_state" kw; sm_min_c_ := None |}, w)
        else (Raise (ValueError "Unknown kind for SMOTE algorithm."), w)
    | _ => (Raise (ValueError "Unknown kind for SMOTE algorithm."), w)
    end.

(** The class of the first sample when it fills at most half of [y],
    otherwise the first other class. *)
Definition minority (y : list Z) : option Z :=
  match y with
  | [] => None
  | c :: _ =>
      if (2 * count_occ Z.eq_dec y c <=? List.length y)%nat then Some c
      else match find (fun c' => negb (Z.eqb c' c)) y with
           | Some c' => Some c'
           | None => Some c
           end
  end.

Definition smote_fit (X : list (list Z)) (y : list Z)
  : method nat smote_t unit :=
  fun s w => (Ok tt, {| sm_rs_ := sm_rs_ s; sm_min_c_ := minority y |}, w).

Definition smote_transform (X : list (list Z)) (y : list Z)
  : method nat smote_t (list (list Z) * list Z) :=
  fun s w =>
    match sm_min_c_ s with
    | None => (Raise (RuntimeError "You need to fit the data, first!!!"), s, w)
    | Some c =>
        match sm_rs_ s with
        | PInt n => (Ok (X ++ [[n]], y ++ [c]), s, w)
        | _ => (Ok (X ++ [[Z.of_nat w]], y ++ [c]), s, S w)
        end
    end.

Definition enn_new : constructor nat enn_t :=
  fun kw w =>
    (Ok {| enn_rs_ := arg "random_state" kw;
           enn_kind_sel := arg "kind_sel" kw |}, w).

Definition has_features (sample : list Z * Z) : bool :=
  negb (List.length (fst sample) =? 0)%nat.

Definition enn_fit_transform (X : list (list Z)) (y : list Z)
  : method nat enn_t (list (list Z) * list Z) :=
  fun e w =>
    let kept := filter has_features (combine X y) in
    (Ok (map fst kept, map snd kept), e, w).

#[export] Instance collab : Collaborators := {|
  samples := list (list Z);
  targets := list Z;
  world := nat;
  BaseSampler := base_t;
  SMOTE := smote_t;
  EditedNearestNeighbours := enn_t;
  check_X_y := check;
  BaseSampler_init := base_init;
  BaseSampler_fit := base_fit;
  BaseSampler_transform := base_transform;
  SMOTE_new := smote_new;
  SMOTE_fit := smote_fit;
  SMOTE_transform := smote_transform;
  ENN_new := enn_new;
  ENN_fit_transform := enn_fit_transform
|}.

(** A store of objects that have not been initialised, and a fresh
    world. *)
Definition blank : @SMOTEENN collab :=
  {| base := {| rs_ := PNone; X_shape_ := None |};
     sm := {| sm_rs_ := PNone; sm_min_c_ := None |};
     enn := {| enn_rs_ := PNone; enn_kind_sel := PNone |} |}.

Definition st0 : @state collab := {| heap := fun _ => blank; ambient := 0%nat |}.

(** Three samples, the last one alone in its class. *)
Definition X0 : list (list Z) := [[1]; [2]; [7]]%Z.
Definition y0 : list Z := [0; 0; 1]%Z.

(** Two samples for three labels: refused by [check_X_y]. *)
Definition X_bad : list (list Z) := [[1]; [2]]%Z.

Definition seeded_args : Args.t :=
  {| Args.ratio := PStr "auto"; Args.random_state := PInt 42;
     Args.verbose := PBool true; Args.k := PInt 5; Args.m := PInt 10;
     Args.out_step := PFloat 0.5; Args.kind_smote := PStr "regular";
     Args.nn_method := PStr "exact"; Args.size_ngh := PInt 3;
     Args.kind_enn := PStr "all"; Args.n_jobs := PInt (-1);
     Args.kwargs := [] |}.

(** [SMOTEENN(kind='svm')] *)
Definition kind_args : Args.t :=
  {| Args.ratio := PStr "auto"; Args.random_state := PNone;
     Args.verbose := PBool true; Args.k := PInt 5; Args.m := PInt 10;
     Args.out_step := PFloat 0.5; Args.kind_smote := PStr "regular";
     Args.nn_method := PStr "exact"; Args.size_ngh := PInt 3;
     Args.kind_enn := PStr "all"; Args.n_jobs := PInt (-1);
     Args.kwargs := [("kind", PStr "svm")] |}.

(** [SMOTEENN(ratio=0.5, random_state=42, C=1)] *)
Definition other_args : Args.t :=
  {| Args.ratio := PFloat 0.5; Args.random_state := PInt 42;
     Args.verbose := PBool true; Args.k := PInt 5; Args.m := PInt 10;
     Args.out_step := PFloat 0.5; Args.kind_smote := PStr "regular";
     Args.nn_method := PStr "exact"; Args.size_ngh := PInt 3;
     Args.kind_enn := PStr "all"; Args.n_jobs := PInt (-1);
     Args.kwargs := [("C", PInt 1)] |}.

(** [obj = SMOTEENN(random_state=42)], with [obj] at reference [0]. *)
Definition initialised : @state collab := final (__init__ 0 seeded_args st0).

(** ... and then [obj.fit(X0, y0)]. *)
Definition fitted : @state collab := final (fit 0 X0 y0 initialised).

(** Another world: the global generator has been drawn from seven
    times. *)
Definition st7 : @state collab := {| heap := fun _ => blank; ambient := 7%nat |}.

(** [SMOTEENN(random_state=42, size_ngh=5, kind_enn='mode')] *)
Definition mode_args : Args.t :=
  {| Args.ratio := PStr "auto"; Args.random_state := PInt 42;
     Args.verbose := PBool true; Args.k := PInt 5; Args.m := PInt 10;
     Args.out_step := PFloat 0.5; Args.kind_smote := PStr "regular";
     Args.nn_method := PStr "exact"; Args.size_ngh := PInt 5;
     Args.kind_enn := PStr "mode"; Args.n_jobs := PInt (-1);
     Args.kwargs := [] |}.

(** [SMOTEENN(random_state=42, kind_enn='nearest')] *)
Definition nearest_args : Args.t :=
  {| Args.ratio := PStr "auto"; Args.random_state := PInt 42;
     Args.verbose := PBool true; Args.k := PInt 5; Args.m := PInt 10;
     Args.out_step := PFloat 0.5; Args.kind_smote := PStr "regular";
     Args.nn_method := PStr "exact"; Args.size_ngh := PInt 3;
     Args.kind_enn := PStr "nearest"; Args.n_jobs := PInt (-1);
     Args.kwargs := [] |}.

(** Three samples of one class. *)
Definition y_one : list Z := [0; 0; 0]%Z.

(** Stricter collaborators: the over-sampler refuses to fit labels of a
    single class, and the cleaner knows two ways to select. *)
Definition smote_fit_checked (X : list (list Z)) (y : list Z)
  : method nat smote_t unit :=
  fun s w =>
    match find (fun c => negb (Z.eqb c (hd 0%Z y))) y with
    | Some _ => smote_fit X y s w
    | None => (Raise (RuntimeError "Only one class detected, aborting..."), s, w)
    end.

Definition enn_new_checked : constructor nat enn_t :=
  fun kw w =>
    match arg "kind_sel" kw with
    | PStr s =>
        if existsb (String.eqb s) ["all"; "mode"] then enn_new kw w
        else (Raise (ValueError "Unknown kind_sel."), w)
    | _ => (Raise (ValueError "Unknown kind_sel."), w)
    end.

Definition checked : Collaborators := {|
  samples := list (list Z);
  targets := list Z;
  world := nat;
  BaseSampler := base_t;
  SMOTE := smote_t;
  EditedNearestNeighbours := enn_t;
  check_X_y := check;
  BaseSampler_init := base_init;
  BaseSampler_fit := base_fit;
  BaseSampler_transform := base_transform;
  SMOTE_new := smote_new;
  SMOTE_fit := smote_fit_checked;
  SMOTE_transform := smote_transform;
  ENN_new := enn_new_checked;
  ENN_fit_transform := enn_fit_transform
|}.

Definition st0_checked : @state checked :=
  @Build_state checked
    (fun _ => @Build_SMOTEENN checked
                {| rs_ := PNone; X_shape_ := None |}
                {| sm_rs_ := PNone; sm_min_c_ := None |}
                {| enn_rs_ := PNone; enn_kind_sel := PNone |})
    0%nat.

Definition initialised_checked : @state checked :=
  final (__init__ (collab := checked) 0 seeded_args st0_checked).

End Toy.


(** * Properties *)

Section Properties.

Context {collab : Collaborators}.

(** ** The store *)

Lemma update_same (h : store) (r : ref) (o : SMOTEENN) : update h r o r = o.
Proof. unfold update. now rewrite Nat.eqb_refl. Qed.

Lemma update_other (h : store) (r r' : ref) (o : SMOTEENN) :
  r' <> r -> update h r o r' = h r'.
Proof.
  intros Hne. unfold update.
  destruct (Nat.eqb_spec r' r) as [Heq | _]; [contradiction | reflexivity].
Qed.

(** ** Running a method body *)

Lemma run_bind_ok {A B} (c : M A) (f : A -> M B) (st : state) (a : A) :
  outcome (c st) = Ok a ->
  bind c f st
  = (outcome (f a (final (c st))), final (f a (final (c st))),
     trace (c st) ++ trace (f a (final (c st)))).
Proof.
  unfold bind, outcome, final, trace.
  destruct (c st) as [[r st1] t1]. cbn [fst snd]. intros ->.
  now destruct (f a st1) as [[r2 st2] t2].
Qed.

Lemma run_bind_raise {A B} (c : M A) (f : A -> M B) (st : state) (e : exn) :
  outcome (c st) = Raise e ->
  bind c f st = (Raise e, final (c st), trace (c st)).
Proof.
  unfold bind, outcome, final, trace.
  destruct (c st) as [[r st1] t1]. cbn [fst snd]. now intros ->.
Qed.

(** Symbolic execution of a method body: unfold the monad, then reduce
    the projections and the reads of the store that became known. *)
Ltac simp :=
  cbn [fst snd heap ambient getattr setattr attr_base attr_sm attr_enn
       base sm enn app] in *;
  rewrite ?update_same in *.

Ltac run :=
  unfold fit_then_transform, resample, fit, transform, __init__, bind, invoke,
    construct_star, construct, assign, call_check_X_y, ret,
    outcome, final, trace in *;
  simp.

(** ** SMOTE, then ENN *)

(** C1.  For every input that validation accepts ([check_X_y] returns
    the validated pair and the base sampler's [transform] check returns),
    [transform] returns exactly what the ENN collaborator's
    [fit_transform] returns on the output of the SMOTE collaborator's
    [transform] of the validated pair, and raises what SMOTE raises when
    SMOTE raises. *)
Theorem transform_is_smote_then_enn (self : ref) (X : samples) (y : targets)
    (st : state) (X' : samples) (y' : targets) (b' : BaseSampler) (w' : world) :
  check_X_y X y = Ok (X', y') ->
  BaseSampler_transform X' y' (base (heap st self)) (ambient st)
    = (Ok tt, b', w') ->
  outcome (transform self X y st)
  = smote_then_enn X' y' (sm (heap st self)) (enn (heap st self)) w'.
Proof.
  intros Hcheck Hbase. unfold smote_then_enn.
  run. rewrite Hcheck. simp. rewrite Hbase. simp.
  destruct (SMOTE_transform X' y' (sm (heap st self)) w')
    as [[[[X1 y1] | e] s'] w1]; simp; reflexivity.
Qed.

(** ** The fit / transform contract *)

(** C2.  For every input that validation accepts ([check_X_y] returns
    the validated pair, and the base sampler's and SMOTE's [fit] return),
    [fit] performs the validation, the base sampler's [fit] and the SMOTE
    collaborator's [fit] on the validated pair, in that order and nothing
    else, and returns the reference it was called on, so that
    [fit(X, y).transform(X, y)] is [transform] run on the same object in
    the state [fit] left. *)
Theorem fit_contract (self : ref) (X : samples) (y : targets) (st : state)
    (X' : samples) (y' : targets) (b' : BaseSampler) (w1 : world)
    (s' : SMOTE) (w2 : world) :
  check_X_y X y = Ok (X', y') ->
  BaseSampler_fit X' y' (base (heap st self)) (ambient st) = (Ok tt, b', w1) ->
  SMOTE_fit X' y' (sm (heap st self)) w1 = (Ok tt, s', w2) ->
  trace (fit self X y st)
    = [Call_check_X_y X y (Ok (X', y'));
       Call_BaseSampler_fit X' y' (Ok tt);
       Call_SMOTE_fit X' y' (Ok tt)]
  /\ outcome (fit self X y st) = Ok self
  /\ heap (final (fit self X y st)) self
     = {| base := b'; sm := s'; enn := enn (heap st self) |}
  /\ ambient (final (fit self X y st)) = w2
  /\ fit_then_transform self X y st
     = (outcome (transform self X y (final (fit self X y st))),
        final (transform self X y (final (fit self X y st))),
        trace (fit self X y st) ++
        trace (transform self X y (final (fit self X y st)))).
Proof.
  intros Hcheck Hbase Hsm.
  assert (Hfour :
    trace (fit self X y st)
      = [Call_check_X_y X y (Ok (X', y'));
         Call_BaseSampler_fit X' y' (Ok tt);
         Call_SMOTE_fit X' y' (Ok tt)]
    /\ outcome (fit self X y st) = Ok self
    /\ heap (final (fit self X y st)) self
       = {| base := b'; sm := s'; enn := enn (heap st self) |}
    /\ ambient (final (fit self X y st)) = w2).
  { run. repeat (first [rewrite Hcheck | rewrite Hbase | rewrite Hsm]; simp).
    repeat split. }
  destruct Hfour as (Htrace & Hself & Hheap & Hamb).
  repeat split; try assumption.
  unfold fit_then_transform. now rewrite (run_bind_ok _ _ _ Hself).
Qed.

(** ** The constructor *)

(** Case analysis on the outcome of the next delegated call. *)
Ltac fork_on x :=
  lazymatch x with
  | fst (fst ?c) => destruct c as [[[?|?] ?] ?] eqn:?
  | fst ?c => destruct c as [[?|?] ?] eqn:?
  | check_X_y ?X ?y => destruct (check_X_y X y) as [[? ?]|?] eqn:?
  end.

Ltac fork :=
  match goal with
  | |- context [match ?x with Some _ => _ | None => _ end] =>
      destruct x eqn:?
  | H : context [match ?x with Some _ => _ | None => _ end] |- _ =>
      destruct x eqn:?
  | |- context [match ?x with Ok _ => _ | Raise _ => _ end] => fork_on x
  | H : context [match ?x with Ok _ => _ | Raise _ => _ end] |- _ => fork_on x
  end;
  repeat match goal with
         | p : (_ * _)%type |- _ => destruct p
         | u : unit |- _ => destruct u
         end;
  simp.

(** The first entry of [star] that repeats an explicit keyword is the one
    Python reports. *)
Lemma duplicate_keyword_some (explicit star : keywords) (key : string) :
  has_key key star = true -> has_key key explicit = true ->
  exists key', duplicate_keyword explicit star = Some key'.
Proof.
  intros Hstar Hexp. unfold duplicate_keyword.
  destruct (find (fun kv => has_key (fst kv) explicit) star) as [[key' v] |] eqn:Hfind.
  - now exists key'.
  - exfalso. unfold has_key in Hstar. apply existsb_exists in Hstar.
    destruct Hstar as ([k0 v0] & Hin & Heq). cbn [fst] in Heq.
    apply String.eqb_eq in Heq. subst k0.
    apply (find_none _ _ Hfind) in Hin. cbn [fst] in Hin. congruence.
Qed.

(** [SMOTEENN(kind=...)]: the keyword [kind] lands in [kwargs] and meets
    the explicit [kind=kind_smote] of the call of [SMOTE]; no collaborator
    is instantiated. *)
Lemma init_raises_on_kind_keyword (self : ref) (a : Args.t) (st : state) :
  has_key "kind" (Args.kwargs a) = true ->
  instantiations (trace (__init__ self a st)) = []
  /\ is_ok (outcome (__init__ self a st)) = false.
Proof.
  intros Hkind.
  destruct (@duplicate_keyword_some (smote_keywords a) _ "kind" Hkind eq_refl)
    as [key' Hdup].
  run. rewrite Hdup. simp. fork; split; reflexivity.
Qed.

(** C3 (amended).  On every argument assignment for which the constructor
    returns, it made three calls and no other: the base initialiser with
    [ratio], [random_state] and [verbose], then [SMOTE] with the given
    [ratio], [random_state], [verbose], [k], [m], [out_step],
    [kind_smote] as [kind], [nn_method] and [n_jobs] followed by the extra
    keyword arguments, then [EditedNearestNeighbours] with the given
    [random_state], [verbose], [size_ngh], [kind_enn] as [kind_sel] and
    [n_jobs]; exactly these two collaborators are instantiated, and the
    extra keyword arguments repeat no keyword passed to [SMOTE]
    explicitly. *)
Theorem init_forwards_configuration (self : ref) (a : Args.t) (st : state) :
  outcome (__init__ self a st) = Ok tt ->
  forwards_configuration self a st
  /\ trace (__init__ self a st)
     = [Call_BaseSampler_init
          [("ratio", Args.ratio a); ("random_state", Args.random_state a);
           ("verbose", Args.verbose a)] (Ok tt);
        Call_SMOTE (smote_keywords a ++ Args.kwargs a) (Ok tt);
        Call_ENN (enn_keywords a) (Ok tt)]
  /\ duplicate_keyword (smote_keywords a) (Args.kwargs a) = None.
Proof.
  intros Hok.
  assert (Htrace :
    trace (__init__ self a st)
    = [Call_BaseSampler_init (base_keywords a) (Ok tt);
       Call_SMOTE (smote_keywords a ++ Args.kwargs a) (Ok tt);
       Call_ENN (enn_keywords a) (Ok tt)]
    /\ duplicate_keyword (smote_keywords a) (Args.kwargs a) = None).
  { run. repeat (fork; try discriminate Hok).
    split; reflexivity. }
  destruct Htrace as [Htrace Hdup].
  repeat split; try assumption.
  exists (smote_keywords a ++ Args.kwargs a), (enn_keywords a).
  split; [now rewrite Htrace |].
  split; unfold receives; repeat constructor.
Qed.

(** ** Exceptions *)

Lemma raises_ret {A} (a : A) : raises_iff_a_call_raises (ret a).
Proof.
  intros st e. cbn. split; [discriminate |].
  intros (d & [] & _).
Qed.

Lemma raises_assign {C} (a : attribute C) (self : ref) (v : C) :
  raises_iff_a_call_raises (assign a self v).
Proof.
  intros st e. cbn. split; [discriminate |].
  intros (d & [] & _).
Qed.

(** A body that makes one call and returns or raises what it did. *)
Lemma raises_single {A} (c : M A) :
  (forall st, exists d,
      trace (c st) = [d] /\ raised d = raised_by (outcome (c st))) ->
  raises_iff_a_call_raises c.
Proof.
  intros Hone st e. destruct (Hone st) as (d & Htrace & Hraised).
  rewrite Htrace. split.
  - intros Hout. exists d. split; [now left |].
    now rewrite Hraised, Hout.
  - intros (d' & [<- | []] & Hd).
    rewrite Hraised in Hd. destruct (outcome (c st)); cbn in Hd; congruence.
Qed.

Lemma raises_check (X : samples) (y : targets) :
  raises_iff_a_call_raises (call_check_X_y X y).
Proof. apply raises_single. intros st. eexists. split; reflexivity. Qed.

Lemma raises_invoke {C A} (a : attribute C) (self : ref)
    (f : method world C A) (event : Res A -> call) :
  (forall r, raised (event r) = raised_by r) ->
  raises_iff_a_call_raises (invoke a self f event).
Proof.
  intros Hevent. apply raises_single. intros st.
  eexists. split; [reflexivity |]. apply Hevent.
Qed.

Lemma raised_by_forget {A} (r : Res A) : raised_by (forget r) = raised_by r.
Proof. now destruct r. Qed.

Lemma raises_construct {C} (cls : constructor world C) (kw : keywords)
    (event : keywords -> Res unit -> call) :
  (forall kw' r, raised (event kw' r) = raised_by r) ->
  raises_iff_a_call_raises (construct cls kw event).
Proof.
  intros Hevent. apply raises_single. intros st.
  eexists. split; [reflexivity |].
  rewrite Hevent. apply raised_by_forget.
Qed.

Lemma raises_construct_star {C} (cls : constructor world C)
    (explicit star : keywords) (event : keywords -> Res unit -> call) :
  (forall kw' r, raised (event kw' r) = raised_by r) ->
  raises_iff_a_call_raises (construct_star cls explicit star event).
Proof.
  intros Hevent. unfold construct_star.
  destruct (duplicate_keyword explicit star) as [key |].
  - apply raises_single. intros st. eexists. split; [reflexivity |].
    now rewrite Hevent.
  - now apply raises_construct.
Qed.

Lemma raises_bind {A B} (c : M A) (f : A -> M B) :
  raises_iff_a_call_raises c ->
  (forall a, raises_iff_a_call_raises (f a)) ->
  raises_iff_a_call_raises (bind c f).
Proof.
  intros Hc Hf st e.
  destruct (outcome (c st)) as [a | e0] eqn:Hout.
  - rewrite (run_bind_ok _ _ _ Hout).
    unfold outcome at 1, trace at 1. cbn [fst snd]. split.
    + intros Hx. apply (Hf a) in Hx. destruct Hx as (d & Hin & Hd).
      exists d. split; [apply in_or_app; now right | exact Hd].
    + intros (d & Hin & Hd). apply in_app_or in Hin. destruct Hin as [Hin | Hin].
      * assert (Hr : outcome (c st) = Raise e) by (apply Hc; eauto).
        congruence.
      * apply (Hf a). eauto.
  - rewrite (run_bind_raise _ _ _ Hout).
    unfold outcome at 1, trace at 1. cbn [fst snd]. split.
    + intros Heq. injection Heq as <-. now apply Hc.
    + intros Hex. apply Hc in Hex. congruence.
Qed.

Lemma raises_fit (self : ref) (X : samples) (y : targets) :
  raises_iff_a_call_raises (fit self X y).
Proof.
  unfold fit.
  apply raises_bind; [apply raises_check | intros [X' y']].
  apply raises_bind; [now apply raises_invoke | intros _].
  apply raises_bind; [now apply raises_invoke | intros _].
  apply raises_ret.
Qed.

Lemma raises_transform (self : ref) (X : samples) (y : targets) :
  raises_iff_a_call_raises (transform self X y).
Proof.
  unfold transform.
  apply raises_bind; [apply raises_check | intros [X' y']].
  apply raises_bind; [now apply raises_invoke | intros _].
  apply raises_bind; [now apply raises_invoke | intros [X1 y1]].
  now apply raises_invoke.
Qed.

(** The constructor too raises exactly when one of its three calls does;
    the call of [SMOTE] raises also when Python refuses its keywords. *)
Lemma raises_init (self : ref) (a : Args.t) :
  raises_iff_a_call_raises (__init__ self a).
Proof.
  unfold __init__.
  apply raises_bind; [now apply raises_invoke | intros _].
  apply raises_bind; [now apply raises_construct_star | intros s].
  apply raises_bind; [apply raises_assign | intros _].
  apply raises_bind; [now apply raises_construct | intros e].
  apply raises_assign.
Qed.

(** C4.  [fit] and [transform] raise [e] if and only if one of the calls
    they delegate to ([check_X_y], the base sampler, a collaborator)
    raised [e]: no failure is added, caught or replaced.  When
    [check_X_y] refuses the input, the exception leaves [fit] and
    [transform] with [check_X_y] the only call made and the store and the
    world as they were. *)
Theorem raises_iff_validation_raises (self : ref) (X : samples) (y : targets)
    (st : state) :
  (forall e,
      outcome (fit self X y st) = Raise e
      <-> exists d, In d (trace (fit self X y st)) /\ raised d = Some e)
  /\ (forall e,
      outcome (transform self X y st) = Raise e
      <-> exists d, In d (trace (transform self X y st)) /\ raised d = Some e)
  /\ (forall e,
      check_X_y X y = Raise e ->
      fit self X y st = (Raise e, st, [Call_check_X_y X y (Raise e)])
      /\ transform self X y st
         = (Raise e, st, [Call_check_X_y X y (Raise e)])).
Proof.
  split; [apply raises_fit | split; [apply raises_transform |]].
  intros e Hcheck. unfold fit, transform.
  rewrite !(run_bind_raise _ _ _ (e := e)) by exact Hcheck.
  unfold call_check_X_y, final, trace. cbn [fst snd]. now rewrite Hcheck.
Qed.

(** ** Which calls reach the ENN collaborator *)

(** The constructor calls each collaborator class at most once, with the
    keywords of the call site, and fits nothing. *)
Lemma init_constructions (self : ref) (a : Args.t) (st : state) :
  (smote_constructions (trace (__init__ self a st)) = []
   \/ smote_constructions (trace (__init__ self a st))
      = [smote_keywords a ++ Args.kwargs a])
  /\ (enn_constructions (trace (__init__ self a st)) = []
      \/ enn_constructions (trace (__init__ self a st)) = [enn_keywords a])
  /\ enn_fitted_on (trace (__init__ self a st)) = [].
Proof.
  run. repeat fork; cbn; auto.
Qed.

Lemma fit_trace_has_no_enn (self : ref) (X : samples) (y : targets)
    (st : state) :
  enn_constructions (trace (fit self X y st)) = []
  /\ enn_fitted_on (trace (fit self X y st)) = [].
Proof.
  run. repeat fork; cbn; auto.
Qed.

(** C5.  The ENN collaborator is fitted neither by the constructor nor by
    [fit]; when [transform] fits it, on [(X1, y1)], the calls of
    [transform] were the validation of the input, the base sampler's
    check, the SMOTE collaborator's [transform] of the validated input,
    which returned [(X1, y1)], and last the ENN collaborator's
    [fit_transform] of [(X1, y1)]. *)
Theorem enn_is_fitted_on_smote_output_only (self : ref) (a : Args.t)
    (X : samples) (y : targets) (st : state) :
  enn_fitted_on (trace (__init__ self a st)) = []
  /\ enn_fitted_on (trace (fit self X y st)) = []
  /\ (forall X1 y1,
        In (X1, y1) (enn_fitted_on (trace (transform self X y st))) ->
        exists X' y' r,
          check_X_y X y = Ok (X', y')
          /\ trace (transform self X y st)
             = [Call_check_X_y X y (Ok (X', y'));
                Call_BaseSampler_transform X' y' (Ok tt);
                Call_SMOTE_transform X' y' (Ok (X1, y1));
                Call_ENN_fit_transform X1 y1 r]).
Proof.
  split; [apply init_constructions |].
  split; [apply fit_trace_has_no_enn |].
  intros X1 y1 Hin. run.
  repeat fork; cbn in Hin; try contradiction.
  destruct Hin as [Heq | []]. injection Heq as <- <-.
  do 3 eexists; split; reflexivity.
Qed.

(** ** What fit changes *)

Lemma fit_frame (self : ref) (X : samples) (y : targets) (st : state) :
  enn (heap (final (fit self X y st)) self) = enn (heap st self)
  /\ (forall r, r <> self -> heap (final (fit self X y st)) r = heap st r).
Proof.
  run. repeat fork; split; try reflexivity; intros r Hne;
    now rewrite ?update_other by exact Hne.
Qed.

(** After a constructor that returned, [self.enn] is the object the call
    of [EditedNearestNeighbours] returned. *)
Lemma init_sets_enn (self : ref) (a : Args.t) (st : state) :
  outcome (__init__ self a st) = Ok tt ->
  exists w,
    fst (ENN_new (enn_keywords a) w)
    = Ok (enn (heap (final (__init__ self a st)) self)).
Proof.
  intros Hok. run. repeat (fork; try discriminate Hok).
  eexists. rewrite Heqp1. reflexivity.
Qed.

(** C9.  [fit], successful or not, leaves the [enn] attribute of its
    object as it was, leaves every other object as it was, and makes no
    call to the ENN collaborator; so after a constructor that returned,
    and then [fit], [self.enn] is still the object the constructor
    built. *)
Theorem fit_leaves_enn_untouched (self : ref) (X : samples) (y : targets)
    (st : state) :
  enn (heap (final (fit self X y st)) self) = enn (heap st self)
  /\ (forall r, r <> self -> heap (final (fit self X y st)) r = heap st r)
  /\ enn_constructions (trace (fit self X y st)) = []
  /\ enn_fitted_on (trace (fit self X y st)) = []
  /\ (forall a st0,
        outcome (__init__ self a st0) = Ok tt ->
        st = final (__init__ self a st0) ->
        exists w,
          fst (ENN_new (enn_keywords a) w)
          = Ok (enn (heap (final (fit self X y st)) self))).
Proof.
  destruct (fit_frame self X y st) as [Henn Hframe].
  destruct (fit_trace_has_no_enn self X y st) as [Hnew Hfit].
  repeat split; try assumption.
  intros a st0 Hok ->. rewrite Henn. now apply init_sets_enn.
Qed.

(** ** Where ratio and the extra keywords go *)

Lemma enn_keywords_same (a1 a2 : Args.t) :
  same_but_ratio_and_kwargs a1 a2 -> enn_keywords a1 = enn_keywords a2.
Proof.
  intros (Hrs & Hv & _ & _ & _ & _ & _ & Hngh & Hkind & Hjobs).
  unfold enn_keywords. congruence.
Qed.

(** C8.  For two constructor calls that differ at most in [ratio] and in
    the extra keyword arguments, every call of [EditedNearestNeighbours]
    of the one carries the keywords of every such call of the other: its
    five keywords, [ratio] and the extra keywords not among them.  The
    call of [SMOTE] carries [ratio] and, after its explicit keywords, the
    extra keyword arguments. *)
Theorem ratio_and_kwargs_go_to_smote_only (self : ref) (a1 a2 : Args.t)
    (st1 st2 : state) :
  same_but_ratio_and_kwargs a1 a2 ->
  (forall kw1 kw2,
      In kw1 (enn_constructions (trace (__init__ self a1 st1))) ->
      In kw2 (enn_constructions (trace (__init__ self a2 st2))) ->
      kw1 = kw2
      /\ map fst kw1
         = ["random_state"; "verbose"; "size_ngh"; "kind_sel"; "n_jobs"]
      /\ lookup "ratio" kw1 = None)
  /\ (forall kw,
        In kw (smote_constructions (trace (__init__ self a1 st1))) ->
        lookup "ratio" kw = Some (Args.ratio a1)
        /\ exists explicit, kw = explicit ++ Args.kwargs a1).
Proof.
  intros Hsame. split.
  - intros kw1 kw2 H1 H2.
    destruct (init_constructions self a1 st1) as (_ & [E1 | E1] & _);
      rewrite E1 in H1; [contradiction |].
    destruct (init_constructions self a2 st2) as (_ & [E2 | E2] & _);
      rewrite E2 in H2; [contradiction |].
    destruct H1 as [<- | []]. destruct H2 as [<- | []].
    split; [now apply enn_keywords_same | split; reflexivity].
  - intros kw H.
    destruct (init_constructions self a1 st1) as ([E | E] & _);
      rewrite E in H; [contradiction |].
    destruct H as [<- | []]. split; [reflexivity | now eexists].
Qed.

(** * More about the three methods *)

(** One call whose result is known. *)
Ltac step H := rewrite H; simp; simp.

(** ** What the constructor leaves behind *)

(** X1.  When the base initialiser, the call of [SMOTE] and the call of
    [EditedNearestNeighbours] return and the extra keyword arguments
    repeat no explicit keyword, the constructor returns, and the object
    holds what the base initialiser left and the two objects the calls
    returned; each call ran in the world the one before left. *)
Theorem init_builds_the_object (self : ref) (a : Args.t) (st : state)
    (b' : BaseSampler) (w1 : world) (s : SMOTE) (w2 : world)
    (e : EditedNearestNeighbours) (w3 : world) :
  BaseSampler_init
    [("ratio", Args.ratio a); ("random_state", Args.random_state a);
     ("verbose", Args.verbose a)] (base (heap st self)) (ambient st)
    = (Ok tt, b', w1) ->
  duplicate_keyword (smote_keywords a) (Args.kwargs a) = None ->
  SMOTE_new (smote_keywords a ++ Args.kwargs a) w1 = (Ok s, w2) ->
  ENN_new (enn_keywords a) w2 = (Ok e, w3) ->
  outcome (__init__ self a st) = Ok tt
  /\ heap (final (__init__ self a st)) self
     = {| base := b'; sm := s; enn := e |}
  /\ ambient (final (__init__ self a st)) = w3.
Proof.
  intros Hbase Hdup Hsm Henn. run. unfold base_keywords.
  step Hbase. step Hdup. step Hsm.
  step Henn. repeat split.
Qed.

(** X2.  The constructor is not atomic: when the call of
    [EditedNearestNeighbours] raises, the exception leaves the constructor
    with the base part initialised and [self.sm] already the new SMOTE
    object, and [self.enn] what it was. *)
Theorem init_keeps_sm_when_enn_fails (self : ref) (a : Args.t) (st : state)
    (b' : BaseSampler) (w1 : world) (s : SMOTE) (w2 : world)
    (ex : exn) (w3 : world) :
  BaseSampler_init (base_keywords a) (base (heap st self)) (ambient st)
    = (Ok tt, b', w1) ->
  duplicate_keyword (smote_keywords a) (Args.kwargs a) = None ->
  SMOTE_new (smote_keywords a ++ Args.kwargs a) w1 = (Ok s, w2) ->
  ENN_new (enn_keywords a) w2 = (Raise ex, w3) ->
  outcome (__init__ self a st) = Raise ex
  /\ heap (final (__init__ self a st)) self
     = {| base := b'; sm := s; enn := enn (heap st self) |}.
Proof.
  intros Hbase Hdup Hsm Henn. run.
  step Hbase. step Hdup. step Hsm.
  step Henn. split; reflexivity.
Qed.

(** ** What fit and transform leave behind *)

(** X3.  [fit] is atomic only up to validation: when the SMOTE
    collaborator's [fit] raises, [fit] raises the same exception with the
    base sampler's statistics already replaced and the SMOTE collaborator
    as its own [fit] left it. *)
Theorem fit_keeps_base_when_smote_fails (self : ref) (X : samples)
    (y : targets) (st : state) (X' : samples) (y' : targets)
    (b' : BaseSampler) (w1 : world) (ex : exn) (s' : SMOTE) (w2 : world) :
  check_X_y X y = Ok (X', y') ->
  BaseSampler_fit X' y' (base (heap st self)) (ambient st) = (Ok tt, b', w1) ->
  SMOTE_fit X' y' (sm (heap st self)) w1 = (Raise ex, s', w2) ->
  outcome (fit self X y st) = Raise ex
  /\ heap (final (fit self X y st)) self
     = {| base := b'; sm := s'; enn := enn (heap st self) |}
  /\ trace (fit self X y st)
     = [Call_check_X_y X y (Ok (X', y'));
        Call_BaseSampler_fit X' y' (Ok tt);
        Call_SMOTE_fit X' y' (Raise ex)].
Proof.
  intros Hcheck Hbase Hsm. run.
  step Hcheck. step Hbase. step Hsm.
  repeat split.
Qed.

(** X4.  When validation, the base sampler's check and the SMOTE
    collaborator's [transform] return, [transform] makes four calls, ends
    as the ENN collaborator's [fit_transform] ended (returned or raised),
    and leaves all three parts of the object as the calls left them: it
    refits [self.enn] every time. *)
Theorem transform_contract (self : ref) (X : samples) (y : targets)
    (st : state) (X' : samples) (y' : targets) (b' : BaseSampler)
    (w1 : world) (X1 : samples) (y1 : targets) (s' : SMOTE) (w2 : world)
    (r : Res (samples * targets)) (e' : EditedNearestNeighbours) (w3 : world) :
  check_X_y X y = Ok (X', y') ->
  BaseSampler_transform X' y' (base (heap st self)) (ambient st)
    = (Ok tt, b', w1) ->
  SMOTE_transform X' y' (sm (heap st self)) w1 = (Ok (X1, y1), s', w2) ->
  ENN_fit_transform X1 y1 (enn (heap st self)) w2 = (r, e', w3) ->
  outcome (transform self X y st) = r
  /\ trace (transform self X y st)
     = [Call_check_X_y X y (Ok (X', y'));
        Call_BaseSampler_transform X' y' (Ok tt);
        Call_SMOTE_transform X' y' (Ok (X1, y1));
        Call_ENN_fit_transform X1 y1 r]
  /\ heap (final (transform self X y st)) self
     = {| base := b'; sm := s'; enn := e' |}
  /\ ambient (final (transform self X y st)) = w3.
Proof.
  intros Hcheck Hbase Hsm Henn. run.
  step Hcheck. step Hbase. step Hsm.
  step Henn. repeat split.
Qed.

(** X5.  [transform] changes [self.enn] only by fitting it: a run of
    [transform] that did not reach the ENN collaborator leaves [self.enn]
    as it was. *)
Theorem transform_changes_enn_by_fitting_only (self : ref) (X : samples)
    (y : targets) (st : state) :
  enn_fitted_on (trace (transform self X y st)) = [] ->
  enn (heap (final (transform self X y st)) self) = enn (heap st self).
Proof.
  intros Hnone. run. repeat fork; cbn in Hnone; try discriminate Hnone;
    reflexivity.
Qed.

(** X6.  The constructor and [transform] change no object but their
    own. *)
Theorem other_objects_are_untouched (self : ref) (a : Args.t) (X : samples)
    (y : targets) (st : state) (r : ref) :
  r <> self ->
  heap (final (__init__ self a st)) r = heap st r
  /\ heap (final (transform self X y st)) r = heap st r.
Proof.
  intros Hne. split; run; repeat fork;
    now rewrite ?update_other by exact Hne.
Qed.

(** ** The order of the calls *)

(** X7.  In every run of the constructor, of [fit] and of [transform],
    only the last call made can have raised: no call follows a call that
    raised. *)
Theorem no_call_follows_a_raise (self : ref) (a : Args.t) (X : samples)
    (y : targets) (st : state) :
  only_the_last_call_raises (trace (__init__ self a st))
  /\ only_the_last_call_raises (trace (fit self X y st))
  /\ only_the_last_call_raises (trace (transform self X y st)).
Proof.
  unfold only_the_last_call_raises.
  repeat split; run; repeat fork; cbn; repeat constructor.
Qed.

(** X8.  Collaborators are built by the constructor only: [fit] and
    [transform] call neither [SMOTE] nor [EditedNearestNeighbours], and
    the constructor calls each at most once. *)
Theorem collaborators_are_built_once (self : ref) (a : Args.t) (X : samples)
    (y : targets) (st : state) :
  smote_constructions (trace (fit self X y st)) = []
  /\ smote_constructions (trace (transform self X y st)) = []
  /\ enn_constructions (trace (transform self X y st)) = []
  /\ (List.length (smote_constructions (trace (__init__ self a st))) <= 1)%nat
  /\ (List.length (enn_constructions (trace (__init__ self a st))) <= 1)%nat.
Proof.
  repeat split; run; repeat fork; cbn; auto.
Qed.

(** ** fit followed by transform *)

(** X9.  When every call of [fit] returns and the base sampler's check in
    [transform] returns, [fit(X, y).transform(X, y)] ends as SMOTE then
    ENN end on the validated input, with the SMOTE object that [fit] just
    fitted and the ENN object as it was before [fit]; the input is
    validated twice, by the same two calls of [check_X_y]. *)
Theorem fit_then_transform_pipeline (self : ref) (X : samples) (y : targets)
    (st : state) (X' : samples) (y' : targets) (b1 : BaseSampler)
    (w1 : world) (s1 : SMOTE) (w2 : world) (b2 : BaseSampler) (w3 : world) :
  check_X_y X y = Ok (X', y') ->
  BaseSampler_fit X' y' (base (heap st self)) (ambient st) = (Ok tt, b1, w1) ->
  SMOTE_fit X' y' (sm (heap st self)) w1 = (Ok tt, s1, w2) ->
  BaseSampler_transform X' y' b1 w2 = (Ok tt, b2, w3) ->
  outcome (fit_then_transform self X y st)
    = smote_then_enn X' y' s1 (enn (heap st self)) w3
  /\ firstn 5 (trace (fit_then_transform self X y st))
     = [Call_check_X_y X y (Ok (X', y'));
        Call_BaseSampler_fit X' y' (Ok tt);
        Call_SMOTE_fit X' y' (Ok tt);
        Call_check_X_y X y (Ok (X', y'));
        Call_BaseSampler_transform X' y' (Ok tt)].
Proof.
  intros Hcheck Hfit Hsm Hbase. unfold smote_then_enn. run.
  step Hcheck. step Hfit. step Hsm. step Hbase.
  destruct (SMOTE_transform X' y' s1 w3) as [[[[X1 y1] | ex] s2] w4];
    simp; simp.
  - destruct (ENN_fit_transform X1 y1 (enn (heap st self)) w4)
      as [[r e'] w5]; simp. split; reflexivity.
  - split; reflexivity.
Qed.

(** ** Keywords *)

Lemma lookup_app_other (key : string) (l rest : keywords) :
  has_key key l = false -> lookup key (l ++ rest) = lookup key rest.
Proof.
  induction l as [| [k' v] l IH]; [reflexivity |].
  cbn. intros H. apply orb_false_elim in H. destruct H as [Hk Hl].
  rewrite Hk. now apply IH.
Qed.

(** Of the keywords written in the call of [SMOTE], only [kind] is not
    the name of a parameter of the constructor. *)
Lemma explicit_smote_keyword (a : Args.t) (key : string) :
  is_parameter key = false ->
  has_key key (smote_keywords a) = String.eqb key "kind".
Proof.
  unfold is_parameter, Args.parameter_names, has_key, smote_keywords.
  cbn [existsb fst]. intros H.
  repeat (apply orb_false_elim in H; destruct H as [? H]).
  repeat match goal with
         | E : String.eqb key _ = false |- _ => rewrite E; clear E
         end.
  cbn [orb]. now rewrite orb_false_r.
Qed.

Lemma smote_collision_is_kind (a : Args.t) :
  Args.well_formed a = true ->
  duplicate_keyword (smote_keywords a) (Args.kwargs a)
  = if has_key "kind" (Args.kwargs a) then Some "kind" else None.
Proof.
  unfold Args.well_formed. intros H. apply andb_prop in H.
  destruct H as [Hextra _]. unfold duplicate_keyword.
  induction (Args.kwargs a) as [| [k' v] l IH]; [reflexivity |].
  cbn [forallb fst] in Hextra. apply andb_prop in Hextra.
  destruct Hextra as [Hk Hl]. apply negb_true_iff in Hk.
  cbn [find fst]. rewrite (explicit_smote_keyword a k' Hk).
  cbn [has_key existsb fst]. rewrite (String.eqb_sym "kind" k').
  destruct (String.eqb_spec k' "kind") as [-> | _]; [reflexivity |].
  cbn [orb]. exact (IH Hl).
Qed.

(** X10.  For arguments as Python binds them, the call of [SMOTE] is
    refused for a repeated keyword exactly when the extra keyword
    arguments hold the key [kind]; once the base initialiser has returned,
    the constructor then raises that [TypeError] with [SMOTE] not entered,
    [EditedNearestNeighbours] not called, and [self.sm] and [self.enn]
    what they were. *)
Theorem init_refuses_kind_only (self : ref) (a : Args.t) :
  Args.well_formed a = true ->
  duplicate_keyword (smote_keywords a) (Args.kwargs a)
    = (if has_key "kind" (Args.kwargs a) then Some "kind" else None)
  /\ (has_key "kind" (Args.kwargs a) = true ->
      forall st b' w1,
        BaseSampler_init (base_keywords a) (base (heap st self)) (ambient st)
          = (Ok tt, b', w1) ->
        outcome (__init__ self a st) = Raise (multiple_values "kind")
        /\ trace (__init__ self a st)
           = [Call_BaseSampler_init (base_keywords a) (Ok tt);
              Call_SMOTE (smote_keywords a ++ Args.kwargs a)
                         (Raise (multiple_values "kind"))]
        /\ sm (heap (final (__init__ self a st)) self) = sm (heap st self)
        /\ enn (heap (final (__init__ self a st)) self) = enn (heap st self)).
Proof.
  intros Hwf. pose proof (smote_collision_is_kind a Hwf) as Hdup.
  split; [exact Hdup |].
  intros Hkind st b' w1 Hbase. rewrite Hkind in Hdup.
  run. step Hbase. step Hdup. repeat split.
Qed.

(** X11.  [size_ngh] and [kind_enn] go to the ENN collaborator only: two
    constructor calls that differ at most in them call [SMOTE] with the
    same keywords. *)
Theorem enn_parameters_do_not_reach_smote (self : ref) (a1 a2 : Args.t)
    (st1 st2 : state) (kw1 kw2 : keywords) :
  same_but_enn_parameters a1 a2 ->
  In kw1 (smote_constructions (trace (__init__ self a1 st1))) ->
  In kw2 (smote_constructions (trace (__init__ self a2 st2))) ->
  kw1 = kw2.
Proof.
  intros (Hr & Hrs & Hv & Hk & Hm & Ho & Hks & Hnn & Hj & Hkw) H1 H2.
  destruct (init_constructions self a1 st1) as ([E1 | E1] & _);
    rewrite E1 in H1; [contradiction |].
  destruct (init_constructions self a2 st2) as ([E2 | E2] & _);
    rewrite E2 in H2; [contradiction |].
  destruct H1 as [<- | []]. destruct H2 as [<- | []].
  unfold smote_keywords. congruence.
Qed.

(** X12.  The ENN collaborator's keywords depend on [random_state],
    [verbose], [size_ngh], [kind_enn] and [n_jobs] alone: two constructor
    calls that agree on these five call [EditedNearestNeighbours] with the
    same keywords, whatever [ratio], [k], [m], [out_step], [kind_smote],
    [nn_method] and the extra keyword arguments are. *)
Theorem smote_parameters_do_not_reach_enn (self : ref) (a1 a2 : Args.t)
    (st1 st2 : state) (kw1 kw2 : keywords) :
  same_enn_parameters a1 a2 ->
  In kw1 (enn_constructions (trace (__init__ self a1 st1))) ->
  In kw2 (enn_constructions (trace (__init__ self a2 st2))) ->
  kw1 = kw2.
Proof.
  intros (Hrs & Hv & Hngh & Hkind & Hj) H1 H2.
  destruct (init_constructions self a1 st1) as (_ & [E1 | E1] & _);
    rewrite E1 in H1; [contradiction |].
  destruct (init_constructions self a2 st2) as (_ & [E2 | E2] & _);
    rewrite E2 in H2; [contradiction |].
  destruct H1 as [<- | []]. destruct H2 as [<- | []].
  unfold enn_keywords. congruence.
Qed.

(** ** Calls of the class *)



Lemma has_key_extra (key : string) (kw : keywords) :
  is_parameter key = false -> has_key key kw = true ->
  has_key key (filter (fun kv => negb (is_parameter (fst kv))) kw) = true.
Proof.
  intros Hkey. induction kw as [| [k' v] kw IH]; [trivial |].
  cbn -[is_parameter]. intros H. apply orb_true_iff in H. destruct H as [H | H].
  - apply String.eqb_eq in H. subst k'. rewrite Hkey. cbn -[is_parameter].
    now rewrite String.eqb_refl.
  - destruct (is_parameter k'); cbn -[is_parameter]; [now apply IH |].
    apply orb_true_iff. right. now apply IH.
Qed.

Lemma lookup_extra (key : string) (kw : keywords) :
  is_parameter key = false ->
  lookup key (filter (fun kv => negb (is_parameter (fst kv))) kw)
  = lookup key kw.
Proof.
  intros Hkey. induction kw as [| [k' v] kw IH]; [reflexivity |].
  cbn -[is_parameter]. destruct (String.eqb_spec key k') as [<- | Hne].
  - rewrite Hkey. cbn -[is_parameter]. now rewrite String.eqb_refl.
  - destruct (is_parameter k'); cbn -[is_parameter]; [exact IH |].
    destruct (String.eqb_spec key k'); [contradiction | exact IH].
Qed.

Lemma bound_kwargs (pos : list pyval) (kw : keywords) (a : Args.t) :
  bind_arguments pos kw = Ok a ->
  Args.kwargs a = filter (fun kv => negb (is_parameter (fst kv))) kw
  /\ Args.kind_enn a
     = parameter pos kw 9 "kind_enn" (Args.kind_enn Args.default).
Proof.
  unfold bind_arguments.
  destruct (find _ kw) as [[name v] |]; [discriminate |].
  destruct (_ <? _)%nat; [discriminate |].
  intros H. injection H as <-. split; reflexivity.
Qed.


(** X14.  No call of the class that gives the keyword [kind] returns: the
    keyword is not a parameter of the constructor, lands in the extra
    keyword arguments and meets the explicit [kind] of the call of
    [SMOTE]. *)
Theorem kind_keyword_never_constructs (self : ref) (pos : list pyval)
    (kw : keywords) (st : state) :
  has_key "kind" kw = true ->
  is_ok (outcome (call_SMOTEENN self pos kw st)) = false
  /\ instantiations (trace (call_SMOTEENN self pos kw st)) = [].
Proof.
  intros Hkind. unfold call_SMOTEENN.
  destruct (bind_arguments pos kw) as [a | e] eqn:Hbind;
    [| split; reflexivity].
  destruct (bound_kwargs pos kw Hbind) as [Hkwargs _].
  assert (Ha : has_key "kind" (Args.kwargs a) = true)
    by (rewrite Hkwargs; now apply has_key_extra).
  destruct (init_raises_on_kind_keyword self a st Ha) as [Hnone Hraise].
  split; assumption.
Qed.

(** X15.  A keyword of the call that names no parameter of the
    constructor, [kind] apart, is among the keywords of every call of
    [SMOTE], with the value it was given. *)
Theorem extra_keywords_reach_smote (self : ref) (pos : list pyval)
    (kw : keywords) (st : state) (key : string) (v : pyval)
    (kw_sm : keywords) :
  is_parameter key = false -> key <> "kind" ->
  lookup key kw = Some v ->
  In kw_sm (smote_constructions (trace (call_SMOTEENN self pos kw st))) ->
  lookup key kw_sm = Some v.
Proof.
  intros Hkey Hkind Hlookup Hin. unfold call_SMOTEENN in Hin.
  destruct (bind_arguments pos kw) as [a | e] eqn:Hbind; [| contradiction].
  destruct (bound_kwargs pos kw Hbind) as [Hkwargs _].
  destruct (init_constructions self a st) as ([E | E] & _);
    rewrite E in Hin; [contradiction |].
  destruct Hin as [<- | []].
  rewrite lookup_app_other.
  - now rewrite Hkwargs, lookup_extra.
  - rewrite (explicit_smote_keyword a key Hkey).
    now apply String.eqb_neq.
Qed.

(** X16.  A keyword [kind_sel] of the call, the name the docstring gives
    the parameter that the signature names [kind_enn], does not reach the
    ENN collaborator: every call of [EditedNearestNeighbours] carries as
    [kind_sel] the value of [kind_enn], ['all'] when the call gives
    none. *)
Theorem kind_sel_keyword_does_not_reach_enn (self : ref) (pos : list pyval)
    (kw : keywords) (st : state) (kw_enn : keywords) :
  In kw_enn (enn_constructions (trace (call_SMOTEENN self pos kw st))) ->
  lookup "kind_sel" kw_enn
  = Some (parameter pos kw 9 "kind_enn" (PStr "all")).
Proof.
  intros Hin. unfold call_SMOTEENN in Hin.
  destruct (bind_arguments pos kw) as [a | e] eqn:Hbind; [| contradiction].
  destruct (bound_kwargs pos kw Hbind) as [_ Hkind].
  destruct (init_constructions self a st) as (_ & [E | E] & _);
    rewrite E in Hin; [contradiction |].
  destruct Hin as [<- | []]. cbn. now rewrite Hkind.
Qed.

(** ** What fit reads, and when the constructor raises *)

(** X17.  [fit] reads nothing of the ENN collaborator: run on two objects
    with the same base-sampler part and the same SMOTE collaborator, in
    the same world, it makes the same calls, ends the same way and leaves
    the same base-sampler part and SMOTE collaborator, whatever the two
    ENN collaborators are. *)
Theorem fit_does_not_read_enn (self : ref) (X : samples) (y : targets)
    (st1 st2 : state) :
  base (heap st1 self) = base (heap st2 self) ->
  sm (heap st1 self) = sm (heap st2 self) ->
  ambient st1 = ambient st2 ->
  outcome (fit self X y st1) = outcome (fit self X y st2)
  /\ trace (fit self X y st1) = trace (fit self X y st2)
  /\ base (heap (final (fit self X y st1)) self)
     = base (heap (final (fit self X y st2)) self)
  /\ sm (heap (final (fit self X y st1)) self)
     = sm (heap (final (fit self X y st2)) self).
Proof.
  intros Hbase Hsm Hworld. run.
  destruct (check_X_y X y) as [[X' y'] | ex]; simp; simp;
    [| repeat split; assumption].
  rewrite Hbase, Hsm, Hworld. repeat fork; repeat split.
Qed.

(** X18.  The constructor raises [e] if and only if one of its three
    calls raised [e], the base initialiser, the call of [SMOTE] (which
    raises also when Python refuses its keywords) or the call of
    [EditedNearestNeighbours]: it adds no failure of its own and hides
    none. *)
Theorem init_raises_iff_a_call_raises (self : ref) (a : Args.t) (st : state)
    (e : exn) :
  outcome (__init__ self a st) = Raise e
  <-> exists d, In d (trace (__init__ self a st)) /\ raised d = Some e.
Proof. apply raises_init. Qed.

End Properties.

(** ** Determinism under a seed *)

Section Seeded.

Context {collab : Collaborators} {sd : SeedDiscipline}.
Variable self : ref.
Variable n : Z.

Lemma agree_bind {A B} (P : SMOTEENN -> Prop) (Q : A -> SMOTEENN -> Prop)
    (R : B -> SMOTEENN -> Prop) (c : M A) (f : A -> M B) :
  agree self P c Q -> (forall a, agree self (Q a) (f a) R) ->
  agree self P (bind c f) R.
Proof.
  intros Hc Hf st1 st2 Hheap HP.
  destruct (Hc st1 st2 Hheap HP) as (Hout & Htrace & Hfinal & HQ).
  destruct (outcome (c st1)) as [a | e] eqn:Hout1.
  - rewrite (run_bind_ok _ _ _ Hout1), (run_bind_ok _ _ _ (eq_sym Hout)).
    destruct (Hf a _ _ Hfinal (HQ a eq_refl)) as (Hout' & Htrace' & Hfinal' & HR).
    unfold outcome at 1 3, trace at 1 4, final at 1 4. cbn [fst snd].
    rewrite <- Htrace, <- Htrace'. repeat split; assumption.
  - rewrite (run_bind_raise _ _ _ Hout1), (run_bind_raise _ _ _ (eq_sym Hout)).
    unfold outcome at 1 2 3, trace at 1 3, final at 1 3. cbn [fst snd].
    repeat split; try assumption. discriminate.
Qed.

Lemma agree_pure {A} (P : SMOTEENN -> Prop) (Q : A -> SMOTEENN -> Prop)
    (c : M A) :
  (forall st, final (c st) = st) ->
  (forall st1 st2, outcome (c st1) = outcome (c st2)
                   /\ trace (c st1) = trace (c st2)) ->
  (forall a o, P o -> Q a o) ->
  agree self P c Q.
Proof.
  intros Hfinal Hsame HPQ st1 st2 Hheap HP.
  destruct (Hsame st1 st2) as [Hout Htrace]. rewrite !Hfinal.
  repeat split; try assumption. intros a _. now apply HPQ.
Qed.

Lemma agree_check (P : SMOTEENN -> Prop)
    (Q : samples * targets -> SMOTEENN -> Prop) (X : samples) (y : targets) :
  (forall a o, P o -> Q a o) -> agree self P (call_check_X_y X y) Q.
Proof. intros HPQ. apply agree_pure; [reflexivity | now split | exact HPQ]. Qed.

Lemma agree_ret {A} (P : SMOTEENN -> Prop) (Q : A -> SMOTEENN -> Prop) (a : A) :
  (forall o, P o -> Q a o) -> agree self P (ret a) Q.
Proof.
  intros HPQ st1 st2 Hheap HP. cbn. repeat split; try assumption.
  intros a' Heq. injection Heq as <-. now apply HPQ.
Qed.

Lemma agree_assign {C} (P : SMOTEENN -> Prop) (Q : unit -> SMOTEENN -> Prop)
    (a : attribute C) (v : C) :
  (forall o, P o -> Q tt (setattr a v o)) -> agree self P (assign a self v) Q.
Proof.
  intros HPQ st1 st2 Hheap HP. unfold assign, outcome, trace, final.
  cbn [fst snd heap]. rewrite !update_same, <- Hheap.
  repeat split. intros [] _. now apply HPQ.
Qed.

(** A method of a seeded receiver. *)
Lemma agree_invoke {C A} (P : SMOTEENN -> Prop) (Q : A -> SMOTEENN -> Prop)
    (a : attribute C) (rs_ : C -> pyval) (f : method world C A)
    (event : Res A -> call) :
  honours_seed rs_ f ->
  (forall o, P o -> rs_ (getattr a o) = PInt n) ->
  (forall o c' r, P o -> rs_ c' = PInt n -> Q r (setattr a c' o)) ->
  agree self P (invoke a self f event) Q.
Proof.
  intros Hseed Hpre Hpost st1 st2 Hheap HP.
  unfold invoke, outcome, trace, final. cbn [fst snd heap].
  rewrite !update_same, <- Hheap.
  destruct (Hseed (getattr a (heap st1 self)) (ambient st1) (ambient st2) n
              (Hpre _ HP)) as [Hsame Hkeeps].
  rewrite <- Hsame. repeat split.
  intros r _. now apply Hpost.
Qed.

(** The initialiser of the base sampler, given a seed. *)
Lemma agree_invoke_init {C} (Q : unit -> SMOTEENN -> Prop)
    (a : attribute C) (rs_ : C -> pyval)
    (f : keywords -> method world C unit) (kw : keywords)
    (event : Res unit -> call) :
  init_honours_seed rs_ f ->
  lookup "random_state" kw = Some (PInt n) ->
  (forall o c', rs_ c' = PInt n -> Q tt (setattr a c' o)) ->
  agree self (fun _ => True) (invoke a self (f kw) event) Q.
Proof.
  intros Hseed Hkw Hpost st1 st2 Hheap _.
  unfold invoke, outcome, trace, final. cbn [fst snd heap].
  rewrite !update_same, <- Hheap.
  destruct (Hseed kw (getattr a (heap st1 self)) (ambient st1) (ambient st2) n
              Hkw) as [Hsame Hsets].
  rewrite <- Hsame. repeat split.
  intros [] Hok. apply Hpost. now apply Hsets.
Qed.

Lemma agree_construct {C} (P : SMOTEENN -> Prop) (rs_ : C -> pyval)
    (cls : constructor world C) (kw : keywords)
    (event : keywords -> Res unit -> call) :
  new_honours_seed rs_ cls ->
  lookup "random_state" kw = Some (PInt n) ->
  agree self P (construct cls kw event) (fun c o => P o /\ rs_ c = PInt n).
Proof.
  intros Hseed Hkw st1 st2 Hheap HP.
  unfold construct, outcome, trace, final. cbn [fst snd heap].
  destruct (Hseed kw (ambient st1) (ambient st2) n Hkw) as [Hsame Hsets].
  rewrite <- Hsame. repeat split; try assumption. now apply Hsets.
Qed.

Lemma agree_construct_star {C} (P : SMOTEENN -> Prop) (rs_ : C -> pyval)
    (cls : constructor world C) (explicit star : keywords)
    (event : keywords -> Res unit -> call) :
  new_honours_seed rs_ cls ->
  lookup "random_state" (explicit ++ star) = Some (PInt n) ->
  agree self P (construct_star cls explicit star event)
        (fun c o => P o /\ rs_ c = PInt n).
Proof.
  intros Hseed Hkw. unfold construct_star.
  destruct (duplicate_keyword explicit star) as [key |].
  - intros st1 st2 Hheap HP. cbn. repeat split; try assumption. discriminate.
  - now apply agree_construct.
Qed.

(** The three methods on a seeded object. *)
Lemma agree_init (a : Args.t) :
  Args.random_state a = PInt n ->
  agree self (fun _ => True) (__init__ self a) (fun _ => all_seeded n).
Proof.
  intros Hrs. unfold __init__.
  apply agree_bind with (Q := fun _ => base_seeded n).
  { apply agree_invoke_init with (rs_ := BaseSampler_rs_).
    - apply seeded_BaseSampler_init.
    - cbn. now rewrite Hrs.
    - intros o c' Hc'. exact Hc'. }
  intros _.
  apply agree_bind
    with (Q := fun s o => base_seeded n o /\ SMOTE_rs_ s = PInt n).
  { apply agree_construct_star.
    - apply seeded_SMOTE_new.
    - cbn. now rewrite Hrs. }
  intros s. apply agree_bind with (Q := fun _ => sm_seeded n).
  { apply agree_assign. intros o [Hb Hs]. split; assumption. }
  intros _.
  apply agree_bind with (Q := fun e o => sm_seeded n o /\ ENN_rs_ e = PInt n).
  { apply agree_construct.
    - apply seeded_ENN_new.
    - cbn. now rewrite Hrs. }
  intros e. apply agree_assign.
  intros o [Hsm He]. split; assumption.
Qed.

Lemma agree_fit (X : samples) (y : targets) :
  agree self (all_seeded n) (fit self X y) (fun _ => all_seeded n).
Proof.
  unfold fit.
  apply agree_bind with (Q := fun _ => all_seeded n);
    [apply agree_check; intros a o H; exact H |].
  intros [X' y']. apply agree_bind with (Q := fun _ => all_seeded n).
  { apply agree_invoke with (rs_ := BaseSampler_rs_).
    - apply seeded_BaseSampler_fit.
    - intros o [[Hb _] _]. exact Hb.
    - intros o c' r [[_ Hs] He] Hc'. repeat split; assumption. }
  intros _. apply agree_bind with (Q := fun _ => all_seeded n).
  { apply agree_invoke with (rs_ := SMOTE_rs_).
    - apply seeded_SMOTE_fit.
    - intros o [[_ Hs] _]. exact Hs.
    - intros o c' r [[Hb _] He] Hc'. repeat split; assumption. }
  intros _. apply agree_ret. intros o H. exact H.
Qed.

Lemma agree_transform (X : samples) (y : targets) :
  agree self (all_seeded n) (transform self X y) (fun _ => all_seeded n).
Proof.
  unfold transform.
  apply agree_bind with (Q := fun _ => all_seeded n);
    [apply agree_check; intros a o H; exact H |].
  intros [X' y']. apply agree_bind with (Q := fun _ => all_seeded n).
  { apply agree_invoke with (rs_ := BaseSampler_rs_).
    - apply seeded_BaseSampler_transform.
    - intros o [[Hb _] _]. exact Hb.
    - intros o c' r [[_ Hs] He] Hc'. repeat split; assumption. }
  intros _. apply agree_bind with (Q := fun _ => all_seeded n).
  { apply agree_invoke with (rs_ := SMOTE_rs_).
    - apply seeded_SMOTE_transform.
    - intros o [[_ Hs] _]. exact Hs.
    - intros o c' r [[Hb _] He] Hc'. repeat split; assumption. }
  intros [X1 y1].
  apply agree_invoke with (rs_ := ENN_rs_).
  - apply seeded_ENN_fit_transform.
  - intros o [_ He]. exact He.
  - intros o c' r [[Hb Hs] _] Hc'. repeat split; assumption.
Qed.

Lemma agree_resample (a : Args.t) (X : samples) (y : targets) :
  Args.random_state a = PInt n ->
  agree self (fun _ => True) (resample self a X y) (fun _ => all_seeded n).
Proof.
  intros Hrs. unfold resample.
  apply agree_bind with (Q := fun _ => all_seeded n); [now apply agree_init |].
  intros _.
  apply agree_bind with (Q := fun _ => all_seeded n); [apply agree_fit |].
  intros _. apply agree_transform.
Qed.

End Seeded.

Section Determinism.

Context {collab : Collaborators} {sd : SeedDiscipline}.

(** C7.  The constructor gives the call of [SMOTE] and the call of
    [EditedNearestNeighbours] the [random_state] it was given.  With
    collaborators that honour their seed, and an integer [random_state],
    two runs of the constructor, [fit] and [transform] on the same inputs
    that start with the same object make the same calls with the same
    outcomes and return the same resampled data, whatever the ambient
    world of each run. *)
Theorem same_seed_same_resampling (self : ref) (a : Args.t) :
  (forall st kw,
      In kw (smote_constructions (trace (__init__ self a st))) ->
      lookup "random_state" kw = Some (Args.random_state a))
  /\ (forall st kw,
        In kw (enn_constructions (trace (__init__ self a st))) ->
        lookup "random_state" kw = Some (Args.random_state a))
  /\ (forall n X y st1 st2,
        Args.random_state a = PInt n ->
        heap st1 self = heap st2 self ->
        outcome (resample self a X y st1) = outcome (resample self a X y st2)
        /\ trace (resample self a X y st1) = trace (resample self a X y st2)).
Proof.
  split; [| split].
  - intros st kw H.
    destruct (init_constructions self a st) as ([E | E] & _);
      rewrite E in H; [contradiction |].
    destruct H as [<- | []]. reflexivity.
  - intros st kw H.
    destruct (init_constructions self a st) as (_ & [E | E] & _);
      rewrite E in H; [contradiction |].
    destruct H as [<- | []]. reflexivity.
  - intros n X y st1 st2 Hrs Hheap.
    destruct (@agree_resample collab sd self n a X y Hrs st1 st2 Hheap I)
      as (Hout & Htrace & _).
    split; assumption.
Qed.

End Determinism.

(** * The properties on concrete data *)

(** ** The small collaborators honour their seed *)

Lemma toy_base_init_seeded : init_honours_seed (collab := Toy.collab) Toy.rs_ Toy.base_init.
Proof.
  intros kw c w1 w2 n Hkw. unfold Toy.base_init.
  assert (Hrs : Toy.arg "random_state" kw = PInt n)
    by (unfold Toy.arg; now rewrite Hkw).
  destruct (Toy.arg "ratio" kw) as [| b | z | f | s]; cbn;
    try (split; [reflexivity | discriminate]).
  - split; [reflexivity | intros _; exact Hrs].
  - destruct (String.eqb s "auto"); cbn;
      (split; [reflexivity | first [discriminate | intros _; exact Hrs]]).
Qed.

Lemma toy_base_fit_seeded (X : list (list Z)) (y : list Z) :
  honours_seed (collab := Toy.collab) Toy.rs_ (Toy.base_fit X y).
Proof. intros c w1 w2 n Hc. cbn. split; [reflexivity | exact Hc]. Qed.

Lemma toy_base_transform_seeded (X : list (list Z)) (y : list Z) :
  honours_seed (collab := Toy.collab) Toy.rs_ (Toy.base_transform X y).
Proof.
  intros c w1 w2 n Hc. unfold Toy.base_transform.
  destruct (Toy.X_shape_ c) as [shape |];
    [destruct (Nat.eqb shape (List.length X)) |];
    cbn; (split; [reflexivity | exact Hc]).
Qed.

Lemma toy_smote_new_seeded : new_honours_seed (collab := Toy.collab) Toy.sm_rs_ Toy.smote_new.
Proof.
  intros kw w1 w2 n Hkw. unfold Toy.smote_new.
  assert (Hrs : Toy.arg "random_state" kw = PInt n)
    by (unfold Toy.arg; now rewrite Hkw).
  destruct (Toy.arg "kind" kw) as [| b | z | f | s]; cbn [fst snd];
    try (split; [reflexivity | discriminate]).
  destruct (existsb (String.eqb s) Toy.possible_kind); cbn [fst snd];
    (split; [reflexivity |]); [| discriminate].
  intros c Hc. injection Hc as <-. exact Hrs.
Qed.

Lemma toy_smote_fit_seeded (X : list (list Z)) (y : list Z) :
  honours_seed (collab := Toy.collab) Toy.sm_rs_ (Toy.smote_fit X y).
Proof. intros c w1 w2 n Hc. cbn. split; [reflexivity | exact Hc]. Qed.

Lemma toy_smote_transform_seeded (X : list (list Z)) (y : list Z) :
  honours_seed (collab := Toy.collab) Toy.sm_rs_ (Toy.smote_transform X y).
Proof.
  intros c w1 w2 n Hc. unfold Toy.smote_transform.
  destruct (Toy.sm_min_c_ c) as [min_c |]; rewrite ?Hc; cbn;
    (split; [reflexivity | exact Hc]).
Qed.

Lemma toy_enn_new_seeded : new_honours_seed (collab := Toy.collab) Toy.enn_rs_ Toy.enn_new.
Proof.
  intros kw w1 w2 n Hkw. unfold Toy.enn_new. cbn. split; [reflexivity |].
  intros c Hc. injection Hc as <-. cbn. unfold Toy.arg. now rewrite Hkw.
Qed.

Lemma toy_enn_fit_transform_seeded (X : list (list Z)) (y : list Z) :
  honours_seed (collab := Toy.collab) Toy.enn_rs_ (Toy.enn_fit_transform X y).
Proof. intros c w1 w2 n Hc. cbn. split; [reflexivity | exact Hc]. Qed.

Definition toy_discipline : @SeedDiscipline Toy.collab :=
  {| BaseSampler_rs_ := Toy.rs_ : @BaseSampler Toy.collab -> pyval;
     SMOTE_rs_ := Toy.sm_rs_ : @SMOTE Toy.collab -> pyval;
     ENN_rs_ := Toy.enn_rs_ : @EditedNearestNeighbours Toy.collab -> pyval;
     seeded_BaseSampler_init := toy_base_init_seeded;
     seeded_BaseSampler_fit := toy_base_fit_seeded;
     seeded_BaseSampler_transform := toy_base_transform_seeded;
     seeded_SMOTE_new := toy_smote_new_seeded;
     seeded_SMOTE_fit := toy_smote_fit_seeded;
     seeded_SMOTE_transform := toy_smote_transform_seeded;
     seeded_ENN_new := toy_enn_new_seeded;
     seeded_ENN_fit_transform := toy_enn_fit_transform_seeded |}.

(** Without a seed the over-sampler draws from the global generator, and
    two runs in different worlds return different data. *)
Lemma unseeded_runs_differ :
  outcome (resample (collab := Toy.collab) 0 Args.default Toy.X0 Toy.y0 Toy.st0)
  <> outcome (resample (collab := Toy.collab) 0 Args.default Toy.X0 Toy.y0
                       Toy.st7).
Proof. vm_compute. discriminate. Qed.

(** ** Runs *)

(** On the fitted object, SMOTE adds the sample drawn from the seed and
    ENN keeps the four samples. *)
Lemma transform_is_smote_then_enn_witness :
  outcome (transform (collab := Toy.collab) 0 Toy.X0 Toy.y0 Toy.fitted)
  = Ok ([[1]; [2]; [7]; [42]], [0; 0; 1; 1])%Z.
Proof.
  exact (@transform_is_smote_then_enn Toy.collab 0 Toy.X0 Toy.y0 Toy.fitted
           Toy.X0 Toy.y0
           {| Toy.rs_ := PInt 42; Toy.X_shape_ := Some 3%nat |} 1%nat
           eq_refl eq_refl).
Defined.

Lemma fit_contract_witness :
  trace (fit (collab := Toy.collab) 0 Toy.X0 Toy.y0 Toy.initialised)
  = [Call_check_X_y (collab := Toy.collab) Toy.X0 Toy.y0
       (Ok (Toy.X0, Toy.y0));
     Call_BaseSampler_fit (collab := Toy.collab) Toy.X0 Toy.y0 (Ok tt);
     Call_SMOTE_fit (collab := Toy.collab) Toy.X0 Toy.y0 (Ok tt)]
  /\ outcome (fit (collab := Toy.collab) 0 Toy.X0 Toy.y0 Toy.initialised)
     = Ok 0%nat.
Proof.
  pose proof (@fit_contract Toy.collab 0 Toy.X0 Toy.y0 Toy.initialised
                Toy.X0 Toy.y0
                {| Toy.rs_ := PInt 42; Toy.X_shape_ := Some 3%nat |} 1%nat
                {| Toy.sm_rs_ := PInt 42; Toy.sm_min_c_ := Some 1%Z |} 1%nat
                eq_refl eq_refl eq_refl) as (Htrace & Hself & _).
  split; assumption.
Defined.

Lemma init_forwards_configuration_witness :
  forwards_configuration (collab := Toy.collab) 0 Toy.seeded_args Toy.st0.
Proof.
  exact (proj1 (@init_forwards_configuration Toy.collab 0 Toy.seeded_args
                  Toy.st0 eq_refl)).
Defined.

(** [SMOTEENN(kind='svm')] is a call the signature accepts, and it
    instantiates no collaborator. *)
Lemma kind_keyword_instantiates_nothing :
  Args.well_formed Toy.kind_args = true
  /\ ~ forwards_configuration (collab := Toy.collab) 0 Toy.kind_args Toy.st0.
Proof.
  split; [reflexivity |].
  intros (kw_sm & kw_enn & Hinst & _).
  destruct (@init_raises_on_kind_keyword Toy.collab 0 Toy.kind_args Toy.st0
              eq_refl) as [Hnone _].
  rewrite Hnone in Hinst. discriminate Hinst.
Qed.

(** Two samples for three labels. *)
Lemma raises_iff_validation_raises_witness :
  fit (collab := Toy.collab) 0 Toy.X_bad Toy.y0 Toy.fitted
  = (Raise (Toy.ValueError
              "Found input variables with inconsistent numbers of samples"),
     Toy.fitted,
     [Call_check_X_y (collab := Toy.collab) Toy.X_bad Toy.y0
        (Raise (Toy.ValueError
                  "Found input variables with inconsistent numbers of samples"))]).
Proof.
  exact (proj1 (proj2 (proj2 (@raises_iff_validation_raises Toy.collab 0
                                Toy.X_bad Toy.y0 Toy.fitted)) _ eq_refl)).
Defined.

Lemma enn_is_fitted_on_smote_output_only_witness :
  exists X' y' r,
    check_X_y (Collaborators := Toy.collab) Toy.X0 Toy.y0 = Ok (X', y')
    /\ trace (transform (collab := Toy.collab) 0 Toy.X0 Toy.y0 Toy.fitted)
       = [Call_check_X_y (collab := Toy.collab) Toy.X0 Toy.y0 (Ok (X', y'));
          Call_BaseSampler_transform (collab := Toy.collab) X' y' (Ok tt);
          Call_SMOTE_transform (collab := Toy.collab) X' y'
            (Ok ([[1]; [2]; [7]; [42]], [0; 0; 1; 1])%Z);
          Call_ENN_fit_transform (collab := Toy.collab)
            [[1]; [2]; [7]; [42]]%Z [0; 0; 1; 1]%Z r].
Proof.
  exact (proj2 (proj2 (@enn_is_fitted_on_smote_output_only Toy.collab 0
                         Toy.seeded_args Toy.X0 Toy.y0 Toy.fitted))
           [[1]; [2]; [7]; [42]]%Z [0; 0; 1; 1]%Z (or_introl eq_refl)).
Defined.

Lemma same_seed_same_resampling_witness :
  outcome (resample (collab := Toy.collab) 0 Toy.seeded_args Toy.X0 Toy.y0
                    Toy.st0)
  = outcome (resample (collab := Toy.collab) 0 Toy.seeded_args Toy.X0 Toy.y0
                      Toy.st7).
Proof.
  exact (proj1 (proj2 (proj2 (@same_seed_same_resampling Toy.collab
                                toy_discipline 0 Toy.seeded_args))
                  42%Z Toy.X0 Toy.y0 Toy.st0 Toy.st7 eq_refl eq_refl)).
Defined.

(** [SMOTEENN(random_state=42)] and
    [SMOTEENN(ratio=0.5, random_state=42, C=1)]. *)
Lemma ratio_and_kwargs_go_to_smote_only_witness :
  enn_keywords Toy.seeded_args = enn_keywords Toy.other_args
  /\ lookup "ratio" (enn_keywords Toy.seeded_args) = None.
Proof.
  assert (Hsame : same_but_ratio_and_kwargs Toy.seeded_args Toy.other_args)
    by (repeat split; reflexivity).
  destruct (proj1 (@ratio_and_kwargs_go_to_smote_only Toy.collab 0
                     Toy.seeded_args Toy.other_args Toy.st0 Toy.st7 Hsame)
              (enn_keywords Toy.seeded_args) (enn_keywords Toy.other_args)
              (or_introl eq_refl) (or_introl eq_refl))
    as (Heq & _ & Hratio).
  split; assumption.
Defined.

Lemma fit_leaves_enn_untouched_witness :
  enn (heap Toy.fitted 0)
  = {| Toy.enn_rs_ := PInt 42; Toy.enn_kind_sel := PStr "all" |}
  /\ exists w,
       fst (ENN_new (Collaborators := Toy.collab)
              (enn_keywords Toy.seeded_args) w)
       = Ok (enn (heap Toy.fitted 0)).
Proof.
  destruct (@fit_leaves_enn_untouched Toy.collab 0 Toy.X0 Toy.y0
              Toy.initialised) as (Henn & _ & _ & _ & Hbuilt).
  split; [exact Henn |].
  exact (Hbuilt Toy.seeded_args Toy.st0 eq_refl eq_refl).
Defined.

(** ** Runs of the constructor, fit and transform *)

Lemma init_builds_the_object_witness :
  outcome (__init__ (collab := Toy.collab) 0 Toy.seeded_args Toy.st0) = Ok tt
  /\ heap (final (__init__ (collab := Toy.collab) 0 Toy.seeded_args Toy.st0)) 0
     = @Build_SMOTEENN Toy.collab
         {| Toy.rs_ := PInt 42; Toy.X_shape_ := None |}
         {| Toy.sm_rs_ := PInt 42; Toy.sm_min_c_ := None |}
         {| Toy.enn_rs_ := PInt 42; Toy.enn_kind_sel := PStr "all" |}
  /\ ambient (final (__init__ (collab := Toy.collab) 0 Toy.seeded_args Toy.st0))
     = 0%nat.
Proof.
  exact (@init_builds_the_object Toy.collab 0 Toy.seeded_args Toy.st0
           _ _ _ _ _ _ eq_refl eq_refl eq_refl eq_refl).
Defined.

(** The cleaner refuses ['nearest'] after the over-sampler was built. *)
Lemma init_keeps_sm_when_enn_fails_witness :
  outcome (__init__ (collab := Toy.checked) 0 Toy.nearest_args Toy.st0_checked)
  = Raise (Toy.ValueError "Unknown kind_sel.")
  /\ heap (final (__init__ (collab := Toy.checked) 0 Toy.nearest_args
                            Toy.st0_checked)) 0
     = @Build_SMOTEENN Toy.checked
         {| Toy.rs_ := PInt 42; Toy.X_shape_ := None |}
         {| Toy.sm_rs_ := PInt 42; Toy.sm_min_c_ := None |}
         {| Toy.enn_rs_ := PNone; Toy.enn_kind_sel := PNone |}.
Proof.
  exact (@init_keeps_sm_when_enn_fails Toy.checked 0 Toy.nearest_args
           Toy.st0_checked _ _ _ _ _ _ eq_refl eq_refl eq_refl eq_refl).
Defined.

(** Labels of one class: the base sampler records the shape, then the
    over-sampler refuses. *)
Lemma fit_keeps_base_when_smote_fails_witness :
  outcome (fit (collab := Toy.checked) 0 Toy.X0 Toy.y_one
               Toy.initialised_checked)
  = Raise (Toy.RuntimeError "Only one class detected, aborting...")
  /\ base (heap (final (fit (collab := Toy.checked) 0 Toy.X0 Toy.y_one
                            Toy.initialised_checked)) 0)
     = {| Toy.rs_ := PInt 42; Toy.X_shape_ := Some 3%nat |}.
Proof.
  destruct (@fit_keeps_base_when_smote_fails Toy.checked 0 Toy.X0 Toy.y_one
              Toy.initialised_checked _ _ _ _ _ _ _
              eq_refl eq_refl eq_refl) as (Hout & Hheap & _).
  split; [exact Hout | now rewrite Hheap].
Defined.

Lemma transform_contract_witness :
  outcome (transform (collab := Toy.collab) 0 Toy.X0 Toy.y0 Toy.fitted)
  = Ok ([[1]; [2]; [7]; [42]], [0; 0; 1; 1])%Z
  /\ List.length (trace (transform (collab := Toy.collab) 0 Toy.X0 Toy.y0
                                   Toy.fitted)) = 4%nat.
Proof.
  destruct (@transform_contract Toy.collab 0 Toy.X0 Toy.y0 Toy.fitted
              _ _ _ _ _ _ _ _ _ _ _
              eq_refl eq_refl eq_refl eq_refl) as (Hout & Htrace & _).
  split; [exact Hout | now rewrite Htrace].
Defined.

(** [transform] before [fit]: the base sampler's check raises. *)
Lemma transform_changes_enn_by_fitting_only_witness :
  enn (heap (final (transform (collab := Toy.collab) 0 Toy.X0 Toy.y0
                              Toy.initialised)) 0)
  = enn (heap Toy.initialised 0).
Proof.
  exact (@transform_changes_enn_by_fitting_only Toy.collab 0 Toy.X0 Toy.y0
           Toy.initialised eq_refl).
Defined.

Lemma other_objects_are_untouched_witness :
  heap (final (__init__ (collab := Toy.collab) 0 Toy.seeded_args Toy.fitted)) 1
  = heap Toy.fitted 1
  /\ heap (final (transform (collab := Toy.collab) 0 Toy.X0 Toy.y0 Toy.fitted)) 1
     = heap Toy.fitted 1.
Proof.
  exact (@other_objects_are_untouched Toy.collab 0 Toy.seeded_args Toy.X0
           Toy.y0 Toy.fitted 1%nat (fun H => O_S 0 (eq_sym H))).
Defined.

Lemma fit_then_transform_pipeline_witness :
  outcome (fit_then_transform (collab := Toy.collab) 0 Toy.X0 Toy.y0
                              Toy.initialised)
  = Ok ([[1]; [2]; [7]; [42]], [0; 0; 1; 1])%Z.
Proof.
  exact (proj1 (@fit_then_transform_pipeline Toy.collab 0 Toy.X0 Toy.y0
                  Toy.initialised _ _ _ _ _ _ _ _
                  eq_refl eq_refl eq_refl eq_refl)).
Defined.

Lemma init_refuses_kind_only_witness :
  outcome (__init__ (collab := Toy.collab) 0 Toy.kind_args Toy.st0)
  = Raise (multiple_values "kind")
  /\ duplicate_keyword (smote_keywords Toy.seeded_args)
                       (Args.kwargs Toy.seeded_args) = None.
Proof.
  split.
  - exact (proj1 (proj2 (@init_refuses_kind_only Toy.collab 0 Toy.kind_args
                           eq_refl) eq_refl Toy.st0 _ _ eq_refl)).
  - exact (proj1 (@init_refuses_kind_only Toy.collab 0 Toy.seeded_args
                    eq_refl)).
Defined.

Lemma enn_parameters_do_not_reach_smote_witness :
  smote_keywords Toy.seeded_args ++ Args.kwargs Toy.seeded_args
  = smote_keywords Toy.mode_args ++ Args.kwargs Toy.mode_args.
Proof.
  refine (@enn_parameters_do_not_reach_smote Toy.collab 0 Toy.seeded_args
            Toy.mode_args Toy.st0 Toy.st7 _ _ _
            (or_introl eq_refl) (or_introl eq_refl)).
  repeat split; reflexivity.
Defined.

Lemma smote_parameters_do_not_reach_enn_witness :
  enn_keywords Toy.seeded_args = enn_keywords Toy.other_args.
Proof.
  refine (@smote_parameters_do_not_reach_enn Toy.collab 0 Toy.seeded_args
            Toy.other_args Toy.st0 Toy.st7 _ _ _
            (or_introl eq_refl) (or_introl eq_refl)).
  repeat split; reflexivity.
Defined.

(** ** Calls of the class *)


(** [SMOTEENN(random_state=42, kind='svm')] *)
Lemma kind_keyword_never_constructs_witness :
  is_ok (outcome (call_SMOTEENN (collab := Toy.collab) 0 []
                    [("random_state", PInt 42); ("kind", PStr "svm")] Toy.st0))
  = false.
Proof.
  exact (proj1 (@kind_keyword_never_constructs Toy.collab 0 []
                  [("random_state", PInt 42); ("kind", PStr "svm")] Toy.st0
                  eq_refl)).
Defined.

(** [SMOTEENN(0.5, random_state=42, C=1)]: [SMOTE] receives [C=1]. *)
Lemma extra_keywords_reach_smote_witness :
  lookup "C" (smote_keywords Toy.other_args ++ Args.kwargs Toy.other_args)
  = Some (PInt 1).
Proof.
  refine (@extra_keywords_reach_smote Toy.collab 0 [PFloat 0.5]
            [("random_state", PInt 42); ("C", PInt 1)] Toy.st0 "C" (PInt 1)
            _ eq_refl _ eq_refl (or_introl eq_refl)).
  discriminate.
Defined.

(** [SMOTEENN(kind_sel='mode')]: the cleaner is built with ['all']. *)
Lemma kind_sel_keyword_does_not_reach_enn_witness :
  lookup "kind_sel"
         [("random_state", PNone); ("verbose", PBool true);
          ("size_ngh", PInt 3); ("kind_sel", PStr "all");
          ("n_jobs", PInt (-1))]
  = Some (PStr "all").
Proof.
  exact (@kind_sel_keyword_does_not_reach_enn Toy.collab 0 []
           [("kind_sel", PStr "mode")] Toy.st0 _ (or_introl eq_refl)).
Defined.

(** The object built with [kind_enn='mode'] and the one built with
    ['all'] fit alike. *)
Lemma fit_does_not_read_enn_witness :
  outcome (fit (collab := Toy.collab) 0 Toy.X0 Toy.y0 Toy.initialised)
  = outcome (fit (collab := Toy.collab) 0 Toy.X0 Toy.y0
                 (final (__init__ (collab := Toy.collab) 0 Toy.mode_args
                                  Toy.st0))).
Proof.
  exact (proj1 (@fit_does_not_read_enn Toy.collab 0 Toy.X0 Toy.y0
                  Toy.initialised
                  (final (__init__ (collab := Toy.collab) 0 Toy.mode_args
                                   Toy.st0))
                  eq_refl eq_refl eq_refl)).
Defined.
